(** * VideoFramePacketizer: a shallow embedding and its properties

    Source: [source/core/woogeen_base/VideoFramePacketizer.cpp].

    The packetizer is a C++ object whose methods mutate a handful of members
    and talk to collaborators that live outside the file (the WebRTC RTP/RTCP
    module, the bitrate controller, the erizo media sink, the frame pipeline
    it is a destination of).  The embedding keeps the members in a record,
    threads it through a small state-and-error monad, and records every call
    made on a collaborator, in program order, in the result of the method.
    What a collaborator answers is read from an environment record. *)

From Stdlib Require Import ZArith List Bool String Lia SpecFloat.
Import ListNotations.
Open Scope Z_scope.

(** ** Machine integers *)

(** [uint32_t] arithmetic wraps modulo [2^32]. *)
Definition to_uint32 (z : Z) : Z := z mod 2 ^ 32.

(** Conversion of a 32-bit pattern to [int] (two's complement). *)
Definition to_int32 (z : Z) : Z :=
  let u := to_uint32 z in if u <? 2 ^ 31 then u else u - 2 ^ 32.

(** Whether an [int] holds [z]: a signed sum or difference that leaves this
    range is undefined. *)
Definition in_int (z : Z) : bool := (- 2 ^ 31 <=? z) && (z <? 2 ^ 31).

(** [ptrdiff_t] and [size_t] are 64 bits wide on the x86-64 Linux targets
    the server builds for. *)
Definition in_ptrdiff (z : Z) : bool := (- 2 ^ 63 <=? z) && (z <? 2 ^ 63).

(** Conversion to [size_t] wraps modulo [2^64]. *)
Definition to_size_t (z : Z) : Z := z mod 2 ^ 64.

(** ** [double] arithmetic

    [calcBitrate(width, height) * (frameFormat == FRAME_FORMAT_VP8 ? 0.9 : 1)]
    multiplies an [unsigned int] by a [double]; the product is then converted
    back to [uint32_t].  Doubles are IEEE 754 binary64 values, taken from the
    Standard Library's specification of them. *)
Module Double.

Definition prec : Z := 53.
Definition emax : Z := 1024.

(** Integer to double: exact for every 32-bit value. *)
Definition of_Z (z : Z) : spec_float := binary_normalize prec emax z 0 false.

Definition mul : spec_float -> spec_float -> spec_float := SFmul prec emax.

(** The literal [0.9]: the double nearest to nine tenths. *)
Definition lit_0_9 : spec_float := SFdiv prec emax (of_Z 9) (of_Z 10).

(** The [int] literal [1], converted to double by the conditional
    operator's usual arithmetic conversions. *)
Definition lit_1 : spec_float := of_Z 1.

(** Rounding toward zero, as a floating-integral conversion does. *)
Definition truncate (x : spec_float) : option Z :=
  match x with
  | S754_zero _ => Some 0
  | S754_finite s m e =>
      Some (cond_Zopp s (if 0 <=? e then Zpos m * 2 ^ e else Zpos m / 2 ^ (- e)))
  | S754_infinity _ | S754_nan => None
  end.

(** Double to [uint32_t]: the truncated value when [uint32_t] can hold it;
    the conversion is undefined otherwise. *)
Definition to_uint32 (x : spec_float) : option Z :=
  match truncate x with
  | Some z => if (0 <=? z) && (z <? 2 ^ 32) then Some z else None
  | None => None
  end.

End Double.

(** [m / 2^n] rounded to the nearest integer, ties to even: what the
    rounding step of a double operation keeps of a mantissa [m] that loses
    its [n] low bits. *)
Definition rne (m n : Z) : Z :=
  let q := m / 2 ^ n in
  match 2 * (m mod 2 ^ n) ?= 2 ^ n with
  | Lt => q
  | Gt => q + 1
  | Eq => if Z.even q then q else q + 1
  end.

(** The shift register of the rounding step after [j] single shifts of [m]:
    the quotient, the last bit shifted out, and whether any bit below it was
    set. *)
Definition shifted (m j : Z) (mrs : shr_record) : Prop :=
  shr_m mrs = m / 2 ^ j /\
  (j = 0 -> shr_r mrs = false /\ shr_s mrs = false) /\
  (1 <= j -> shr_r mrs = Z.odd (m / 2 ^ (j - 1)) /\
             shr_s mrs = negb (m mod 2 ^ (j - 1) =? 0)).

(** ** Data model *)

(** [FrameFormat] of the frame pipeline.  The source names six of its values;
    every other enumerator (the audio formats) is [FRAME_FORMAT_OTHER]. *)
Inductive FrameFormat :=
| FRAME_FORMAT_UNKNOWN
| FRAME_FORMAT_I420
| FRAME_FORMAT_VP8
| FRAME_FORMAT_VP9
| FRAME_FORMAT_H264
| FRAME_FORMAT_H265
| FRAME_FORMAT_OTHER (tag : Z).

Definition FrameFormat_eq_dec (a b : FrameFormat) : {a = b} + {a <> b}.
Proof. decide equality. apply Z.eq_dec. Defined.

Definition FrameFormat_eqb (a b : FrameFormat) : bool :=
  if FrameFormat_eq_dec a b then true else false.

Record VideoFrameSpecificInfo := {
  width : Z;
  height : Z;
  isKeyFrame : bool
}.

(** [struct Frame]; [additionalInfo] is a union of which this file reads the
    [video] member only.  [length], [timeStamp], [width] and [height] are
    unsigned in the source: values here are taken to be non-negative. *)
Record Frame := {
  format : FrameFormat;
  payload : list Z;
  length : Z;
  timeStamp : Z;
  additionalInfo_video : VideoFrameSpecificInfo
}.

Inductive FeedbackType := VIDEO_FEEDBACK.
Inductive FeedbackCmd := REQUEST_KEY_FRAME.
Record FeedbackMsg := { type : FeedbackType; cmd : FeedbackCmd }.

Inductive VideoCodecType :=
| kVideoCodecVP8 | kVideoCodecVP9 | kVideoCodecH264 | kVideoCodecH265.

(** The payload type macros of the RTP utilities, kept symbolic. *)
Inductive PayloadType :=
| VP8_90000_PT | VP9_90000_PT | H264_90000_PT | H265_90000_PT
| RED_90000_PT | ULP_90000_PT.

(** The members of [webrtc::VideoCodec] that [setSendCodec] writes after
    zeroing the struct. *)
Record VideoCodec := {
  codecType : VideoCodecType;
  plName : string;
  plType : PayloadType
}.

Inductive RtpVideoCodecTypes :=
| kRtpVideoVp8 | kRtpVideoVp9 | kRtpVideoH264 | kRtpVideoH265.

Inductive FrameType := kVideoFrameKey.

(** [webrtc::RTPVideoHeader]: the codec tag and whether the codec specific
    header was initialised ([InitRTPVideoHeaderVP8/VP9]). *)
Record RTPVideoHeader := {
  codec : RtpVideoCodecTypes;
  codecHeader_initialised : bool
}.

(** [webrtc::RTPFragmentationHeader]: the (offset, length) entries in the
    order they were appended, both [size_t].  [fragmentationVectorSize], a
    [uint16_t], is their number, so a header holds 65535 entries at most;
    the scan below never builds a longer list. *)
Definition RTPFragmentationHeader := list (Z * Z).

Definition fragmentationVectorSize (frag_info : RTPFragmentationHeader) : Z :=
  Z.of_nat (List.length frag_info).

(** Handles on collaborator objects. *)
Definition MediaSink := nat.
Definition FeedbackSource := nat.

(** What is known of the RTP/RTCP module: its synchronization source. *)
Record RtpRtcp := { SSRC : Z }.

(** Calls made on collaborators.  [this] as an argument is [FeedbackSink_this]. *)
Inductive FeedbackSinkPtr := FeedbackSink_this.

Inductive Call :=
| deliverFeedbackMsg (msg : FeedbackMsg)
| SendOutgoingData (frame_type : FrameType) (payload_type : PayloadType)
    (time_stamp capture_time_ms : Z) (payload_data : list Z) (payload_size : Z)
    (fragmentation : option RTPFragmentationHeader) (rtp_video_hdr : RTPVideoHeader)
| RegisterSendPayload (video_codec : VideoCodec)
| IncomingRtcpPacket (buf : list Z) (len : Z)
| SetStartBitrate (start_bitrate_bps : Z)
| SetMinMaxBitrate (min_bitrate_bps max_bitrate_bps : Z)
| setVideoSinkSSRC (sink : MediaSink) (ssrc : Z)
| setFeedbackSink (source : FeedbackSource) (sink : option FeedbackSinkPtr)
| deliverVideoData (sink : MediaSink) (buf : list Z) (len : Z)
| SetGenericFECStatus (enable : bool) (red ulpfec : option PayloadType)
| SetREMBStatus (enable : bool)
| SetStorePacketsStatus (enable : bool) (number_to_store : Z)
| TaskRunner_Start
| TaskRunner_Stop
| RegisterModule
| DeRegisterModule.

(** The members of the object. *)
Record VideoFramePacketizer := {
  m_enabled : bool;
  m_keyFrameArrived : bool;
  m_frameFormat : FrameFormat;
  m_frameWidth : Z;
  m_frameHeight : Z;
  videoSink_ : option MediaSink;
  m_rtpRtcp : option RtpRtcp
}.

(** ** The monad of a method body *)

Inductive Fault :=
| AssertionFailed      (* [assert] aborted the process *)
| NullDereference      (* a member was accessed through a null pointer *)
| UndefinedConversion  (* a double outside the range of [uint32_t] *)
| IntegerOverflow      (* a signed sum or difference left the range of its type *)
| OutOfBoundsWrite     (* an array was written behind its last element *)
| OutOfFuel.           (* the NAL scan did not finish within its bound *)

Inductive Outcome (A : Type) :=
| Done (a : A) (st : VideoFramePacketizer) (calls : list Call)
| Crash (f : Fault).
Arguments Done {A} a st calls.
Arguments Crash {A} f.

Definition M (A : Type) : Type := VideoFramePacketizer -> Outcome A.

Definition ret {A} (a : A) : M A := fun st => Done a st [].

Definition bind {A B} (m : M A) (k : A -> M B) : M B :=
  fun st =>
    match m st with
    | Done a st1 c1 =>
        match k a st1 with
        | Done b st2 c2 => Done b st2 (c1 ++ c2)
        | Crash f => Crash f
        end
    | Crash f => Crash f
    end.

Definition gets {A} (f : VideoFramePacketizer -> A) : M A :=
  fun st => Done (f st) st [].

Definition modify (f : VideoFramePacketizer -> VideoFramePacketizer) : M unit :=
  fun st => Done tt (f st) [].

Definition call (c : Call) : M unit := fun st => Done tt st [c].

Definition crash {A} (f : Fault) : M A := fun _ => Crash f.

Declare Scope pktz_scope.
Delimit Scope pktz_scope with pktz.
Notation "x <- m ;; k" := (bind m (fun x => k))
  (at level 61, m at next level, right associativity) : pktz_scope.
Notation "m ;; k" := (bind m (fun _ => k))
  (at level 61, right associativity) : pktz_scope.
Open Scope pktz_scope.

(** Member updates. *)
Definition set_m_enabled (b : bool) (st : VideoFramePacketizer) :=
  {| m_enabled := b; m_keyFrameArrived := m_keyFrameArrived st;
     m_frameFormat := m_frameFormat st; m_frameWidth := m_frameWidth st;
     m_frameHeight := m_frameHeight st; videoSink_ := videoSink_ st;
     m_rtpRtcp := m_rtpRtcp st |}.

Definition set_m_keyFrameArrived (b : bool) (st : VideoFramePacketizer) :=
  {| m_enabled := m_enabled st; m_keyFrameArrived := b;
     m_frameFormat := m_frameFormat st; m_frameWidth := m_frameWidth st;
     m_frameHeight := m_frameHeight st; videoSink_ := videoSink_ st;
     m_rtpRtcp := m_rtpRtcp st |}.

Definition set_codec_state (f : FrameFormat) (w h : Z) (st : VideoFramePacketizer) :=
  {| m_enabled := m_enabled st; m_keyFrameArrived := m_keyFrameArrived st;
     m_frameFormat := f; m_frameWidth := w; m_frameHeight := h;
     videoSink_ := videoSink_ st; m_rtpRtcp := m_rtpRtcp st |}.

Definition set_videoSink_ (s : option MediaSink) (st : VideoFramePacketizer) :=
  {| m_enabled := m_enabled st; m_keyFrameArrived := m_keyFrameArrived st;
     m_frameFormat := m_frameFormat st; m_frameWidth := m_frameWidth st;
     m_frameHeight := m_frameHeight st; videoSink_ := s;
     m_rtpRtcp := m_rtpRtcp st |}.

Definition set_m_rtpRtcp (r : option RtpRtcp) (st : VideoFramePacketizer) :=
  {| m_enabled := m_enabled st; m_keyFrameArrived := m_keyFrameArrived st;
     m_frameFormat := m_frameFormat st; m_frameWidth := m_frameWidth st;
     m_frameHeight := m_frameHeight st; videoSink_ := videoSink_ st;
     m_rtpRtcp := r |}.

(** ** The environment of the packetizer

    Everything the file uses but does not define: the build mode, two helper
    functions of the repository's utility headers, and the answers of the
    collaborators. *)

Inductive DataType := VIDEO | AUDIO.

Record Env := {
  (** Whether [NDEBUG] is defined, that is, whether [assert] expands to
      nothing. *)
  NDEBUG : bool;
  (** [calcBitrate(width, height)] of MediaUtilities.h, in kbps; its
      [unsigned int] result is what [to_uint32] keeps of the value here. *)
  calcBitrate : Z -> Z -> Z;
  (** [findNALU(payload + offset, size, &start, &end)]: the value returned
      and the two offsets written, all three [int]: the scan reads them
      through [to_int32]. *)
  findNALU : list Z -> Z -> Z -> Z * Z * Z;
  (** What [RtpRtcp::CreateRtpRtcp] returns. *)
  CreateRtpRtcp : option RtpRtcp;
  (** The value [RtpRtcp::RegisterSendPayload] returns. *)
  RegisterSendPayload_result : VideoCodec -> Z;
  (** The value [RtpRtcp::IncomingRtcpPacket] returns. *)
  IncomingRtcpPacket_result : list Z -> Z -> Z;
  (** [MediaSink::getFeedbackSource], null when the sink has none. *)
  getFeedbackSource : MediaSink -> option FeedbackSource
}.

Inductive ScanExit :=
| BufferConsumed   (* the loop condition [buffer_length > 0] became false *)
| ScanError.       (* [findNALU] returned a negative length: [break] *)

(** What the scan loop of [onFrame] comes to: the header it leaves and the
    way the loop was left, or the fault that stopped it. *)
Inductive Scan :=
| Scanned (frag_info : RTPFragmentationHeader) (how : ScanExit)
| ScanFault (f : Fault).

Section Packetizer.

Variable env : Env.

(** [assert(cond)]. *)
Definition assert (cond : bool) : M unit :=
  if cond || NDEBUG env then ret tt else crash AssertionFailed.

(** [FeedbackMsg feedback = {.type = VIDEO_FEEDBACK, .cmd = REQUEST_KEY_FRAME};
     deliverFeedbackMsg(feedback);] *)
Definition requestKeyFrame : M unit :=
  call (deliverFeedbackMsg {| type := VIDEO_FEEDBACK; cmd := REQUEST_KEY_FRAME |}).

(** Access to [m_rtpRtcp->...]. *)
Definition deref_rtpRtcp : M RtpRtcp :=
  r <- gets m_rtpRtcp ;;
  match r with
  | Some rtp => ret rtp
  | None => crash NullDereference
  end.

(** *** bindTransport, unbindTransport *)

Definition bindTransport (sink : option MediaSink) : M unit :=
  modify (set_videoSink_ sink) ;;
  vs <- gets videoSink_ ;;
  match vs with
  | None => crash NullDereference
  | Some s =>
      rtp <- deref_rtpRtcp ;;
      call (setVideoSinkSSRC s (SSRC rtp)) ;;
      match getFeedbackSource env s with
      | Some fbSource => call (setFeedbackSink fbSource (Some FeedbackSink_this))
      | None => ret tt
      end
  end.

Definition unbindTransport : M unit :=
  vs <- gets videoSink_ ;;
  match vs with
  | Some s =>
      match getFeedbackSource env s with
      | Some fbSource => call (setFeedbackSink fbSource None)
      | None => ret tt
      end ;;
      modify (set_videoSink_ None)
  | None => ret tt
  end.

(** *** enable *)

Definition enable (enabled : bool) : M unit :=
  modify (set_m_enabled enabled) ;;
  e <- gets m_enabled ;;
  if e then requestKeyFrame else ret tt.

(** *** setSendCodec *)

(** The [switch]: the codec descriptor of a format, [None] on the
    [FRAME_FORMAT_I420] and [default] labels. *)
Definition sendCodec (frameFormat : FrameFormat) : option VideoCodec :=
  match frameFormat with
  | FRAME_FORMAT_VP8 =>
      Some {| codecType := kVideoCodecVP8; plName := "VP8"; plType := VP8_90000_PT |}
  | FRAME_FORMAT_VP9 =>
      Some {| codecType := kVideoCodecVP9; plName := "VP9"; plType := VP9_90000_PT |}
  | FRAME_FORMAT_H264 =>
      Some {| codecType := kVideoCodecH264; plName := "H264"; plType := H264_90000_PT |}
  | FRAME_FORMAT_H265 =>
      Some {| codecType := kVideoCodecH265; plName := "H265"; plType := H265_90000_PT |}
  | FRAME_FORMAT_I420 => None
  | _ => None
  end.

Definition TRANSMISSION_MAXBITRATE_MULTIPLIER : Z := 2.

(** [calcBitrate(width, height) * (frameFormat == FRAME_FORMAT_VP8 ? 0.9 : 1)]
    converted to [uint32_t]. *)
Definition targetKbps (frameFormat : FrameFormat) (width height : Z) : option Z :=
  Double.to_uint32
    (Double.mul (Double.of_Z (to_uint32 (calcBitrate env width height)))
       (if FrameFormat_eqb frameFormat FRAME_FORMAT_VP8
        then Double.lit_0_9 else Double.lit_1)).

Definition setSendCodec (frameFormat : FrameFormat) (width height : Z) : M bool :=
  fmt <- gets m_frameFormat ;;
  assert (FrameFormat_eqb frameFormat fmt) ;;
  match sendCodec frameFormat with
  | None => ret false
  | Some codec =>
      match targetKbps frameFormat width height with
      | None => crash UndefinedConversion
      | Some targetKbps =>
          let minKbps := targetKbps / 4 in
          call (SetStartBitrate (to_uint32 (targetKbps * 1000))) ;;
          call (SetMinMaxBitrate
                  (to_uint32 (minKbps * 1000))
                  (to_uint32
                     (to_uint32 (TRANSMISSION_MAXBITRATE_MULTIPLIER * targetKbps) * 1000))) ;;
          r <- gets m_rtpRtcp ;;
          match r with
          | None => ret false
          | Some _ =>
              call (RegisterSendPayload codec) ;;
              ret (negb (RegisterSendPayload_result env codec =? -1))
          end
      end
  end.

(** *** Feedback and data entry points *)

Definition OnReceivedIntraFrameRequest (ssrc : Z) : M unit := requestKeyFrame.

Definition deliverFeedback (buf : list Z) (len : Z) : M Z :=
  _ <- deref_rtpRtcp ;;
  call (IncomingRtcpPacket buf len) ;;
  ret (if IncomingRtcpPacket_result env buf len =? -1 then 0 else len).

Definition receiveRtpData (buf : list Z) (len : Z) (type : DataType) (channelId : Z)
  : M unit :=
  vs <- gets videoSink_ ;;
  match vs with
  | None => ret tt
  | Some s =>
      assert (match type with VIDEO => true | AUDIO => false end) ;;
      call (deliverVideoData s buf len)
  end.

Definition OnNetworkChanged (target_bitrate fraction_loss rtt : Z) : M unit := ret tt.

Definition sendFirPacket : M Z := requestKeyFrame ;; ret 0.

(** *** onFrame *)

(** The [while (buffer_length > 0)] loop over the payload.  [offset] is
    [buffer_start - frame.payload], a [ptrdiff_t]; [buffer_length] and what
    [findNALU] hands back are [int]s.

    [uint16_t last] is the number of entries held.
    [VerifyAndAllocateFragmentationHeader(last + 1)] of WebRTC's
    module_common_types.h asserts that its argument is 65535 at most and
    then grows the two arrays to [(uint16_t)(last + 1)] entries if they hold
    fewer.  At the 65536th unit of a frame the assertion aborts; built
    without assertions, [(uint16_t)65536] is 0, nothing grows, and line 221
    writes entry 65535 of arrays that end at entry 65534.  The pointer
    difference, the sums and the difference of lines 221 to 225 are signed
    and must stay in range.

    Every round that goes on adds an entry, so the loop has at most 65536
    rounds; [fuel] bounds them here, and [ScanFault OutOfFuel] says that the
    bound given was too small. *)
Fixpoint scanNALUs (fuel : nat) (payload : list Z) (offset buffer_length : Z)
    (frag_info : RTPFragmentationHeader) : Scan :=
  if buffer_length >? 0 then
    match fuel with
    | O => ScanFault OutOfFuel
    | S fuel' =>
        let '(found, start, _) := findNALU env payload offset buffer_length in
        let nalu_found_length := to_int32 found in
        let nalu_start_offset := to_int32 start in
        if nalu_found_length <? 0 then Scanned frag_info ScanError
        else
          let last := fragmentationVectorSize frag_info in
          if negb (last + 1 <=? 65535) && negb (NDEBUG env) then
            ScanFault AssertionFailed
          else if negb (in_ptrdiff offset
                        && in_ptrdiff (nalu_start_offset + offset)) then
            ScanFault IntegerOverflow
          else if negb (last + 1 <=? 65535) then
            ScanFault OutOfBoundsWrite
          else if negb (in_int (nalu_start_offset + nalu_found_length)) then
            ScanFault IntegerOverflow
          else if negb (in_int (buffer_length
                                - (nalu_start_offset + nalu_found_length))) then
            ScanFault IntegerOverflow
          else
            scanNALUs fuel' payload
              (offset + (nalu_start_offset + nalu_found_length))
              (buffer_length - (nalu_start_offset + nalu_found_length))
              (frag_info
               ++ [(to_size_t (nalu_start_offset + offset), nalu_found_length)])
    end
  else Scanned frag_info BufferConsumed.

(** The rounds a scan that starts from an empty header can take. *)
Definition scan_rounds : nat := Pos.to_nat 65536.

(** [m_rtpRtcp->SendOutgoingData(webrtc::kVideoFrameKey, pt, frame.timeStamp,
    frame.timeStamp / 90, frame.payload, frame.length, frag, &h)]. *)
Definition sendOutgoingData (pt : PayloadType) (frame : Frame)
    (frag : option RTPFragmentationHeader) (h : RTPVideoHeader) : M unit :=
  _ <- deref_rtpRtcp ;;
  call (SendOutgoingData kVideoFrameKey pt (timeStamp frame) (timeStamp frame / 90)
          (payload frame) (length frame) frag h).

(** Lines 184-191: the codec-state cache. *)
Definition updateCodecState (frame : Frame) : M unit :=
  let v := additionalInfo_video frame in
  fmt <- gets m_frameFormat ;;
  w <- gets m_frameWidth ;;
  h <- gets m_frameHeight ;;
  if negb (FrameFormat_eqb (format frame) fmt)
     || negb (width v =? w) || negb (height v =? h)
  then
    modify (set_codec_state (format frame) (width v) (height v)) ;;
    fmt' <- gets m_frameFormat ;;
    w' <- gets m_frameWidth ;;
    h' <- gets m_frameHeight ;;
    _ <- setSendCodec fmt' w' h' ;;
    ret tt
  else ret tt.

(** Lines 193-234: the dispatch on the frame's format. *)
Definition dispatchFrame (frame : Frame) : M unit :=
  match format frame with
  | FRAME_FORMAT_VP8 =>
      sendOutgoingData VP8_90000_PT frame None
        {| codec := kRtpVideoVp8; codecHeader_initialised := true |}
  | FRAME_FORMAT_VP9 =>
      sendOutgoingData VP9_90000_PT frame None
        {| codec := kRtpVideoVp9; codecHeader_initialised := true |}
  | FRAME_FORMAT_H264 | FRAME_FORMAT_H265 =>
      let buffer_length := to_int32 (length frame) in
      match scanNALUs scan_rounds (payload frame) 0 buffer_length [] with
      | ScanFault f => crash f
      | Scanned frag_info _ =>
          match format frame with
          | FRAME_FORMAT_H264 =>
              sendOutgoingData H264_90000_PT frame (Some frag_info)
                {| codec := kRtpVideoH264; codecHeader_initialised := false |}
          | _ =>
              sendOutgoingData H265_90000_PT frame (Some frag_info)
                {| codec := kRtpVideoH265; codecHeader_initialised := false |}
          end
      end
  | _ => ret tt
  end.

Definition onFrame (frame : Frame) : M unit :=
  enabled <- gets m_enabled ;;
  if negb enabled then ret tt
  else
    keyFrameArrived <- gets m_keyFrameArrived ;;
    if negb keyFrameArrived then
      if negb (isKeyFrame (additionalInfo_video frame)) then requestKeyFrame
      else
        modify (set_m_keyFrameArrived true) ;;
        updateCodecState frame ;;
        dispatchFrame frame
    else
      updateCodecState frame ;;
      dispatchFrame frame.

(** *** init, close, construction, destruction *)

Definition init (enableRed enableUlpfec : bool) : M bool :=
  call (SetStartBitrate (300 * 1000)) ;;
  call (SetMinMaxBitrate 0 0) ;;
  modify (set_m_rtpRtcp (CreateRtpRtcp env)) ;;
  let red_pl_type := if enableRed then Some RED_90000_PT else None in
  let ulpfec_pl_type := if enableUlpfec then Some ULP_90000_PT else None in
  _ <- deref_rtpRtcp ;;
  call (SetGenericFECStatus false red_pl_type ulpfec_pl_type) ;;
  call (SetREMBStatus true) ;;
  call (SetStorePacketsStatus true 600) ;;
  call RegisterModule ;;
  ret true.

Definition close : M unit :=
  vs <- gets videoSink_ ;;
  match vs with
  | Some s =>
      match getFeedbackSource env s with
      | Some fbSource => call (setFeedbackSink fbSource None)
      | None => ret tt
      end ;;
      modify (set_videoSink_ None)
  | None => ret tt
  end ;;
  call DeRegisterModule.

(** The members as the constructor's initialiser list and first statement
    leave them. *)
Definition initial_members : VideoFramePacketizer :=
  {| m_enabled := true; m_keyFrameArrived := false;
     m_frameFormat := FRAME_FORMAT_UNKNOWN; m_frameWidth := 0; m_frameHeight := 0;
     videoSink_ := None; m_rtpRtcp := None |}.

Definition construct (enableRed enableUlpfec : bool) : Outcome unit :=
  (call TaskRunner_Start ;;
   _ <- init enableRed enableUlpfec ;;
   ret tt) initial_members.

Definition destruct_ : M unit := close ;; call TaskRunner_Stop.

(** *** Sequences of method calls on one instance *)

Inductive Op :=
| OpBindTransport (sink : option MediaSink)
| OpUnbindTransport
| OpEnable (enabled : bool)
| OpSetSendCodec (frameFormat : FrameFormat) (width height : Z)
| OpOnReceivedIntraFrameRequest (ssrc : Z)
| OpDeliverFeedback (buf : list Z) (len : Z)
| OpReceiveRtpData (buf : list Z) (len : Z) (type : DataType) (channelId : Z)
| OpOnNetworkChanged (target_bitrate fraction_loss rtt : Z)
| OpOnFrame (frame : Frame)
| OpSendFirPacket
| OpInit (enableRed enableUlpfec : bool)
| OpClose.

Definition run_op (op : Op) : M unit :=
  match op with
  | OpBindTransport sink => bindTransport sink
  | OpUnbindTransport => unbindTransport
  | OpEnable enabled => enable enabled
  | OpSetSendCodec f w h => _ <- setSendCodec f w h ;; ret tt
  | OpOnReceivedIntraFrameRequest ssrc => OnReceivedIntraFrameRequest ssrc
  | OpDeliverFeedback buf len => _ <- deliverFeedback buf len ;; ret tt
  | OpReceiveRtpData buf len ty ch => receiveRtpData buf len ty ch
  | OpOnNetworkChanged t f r => OnNetworkChanged t f r
  | OpOnFrame frame => onFrame frame
  | OpSendFirPacket => _ <- sendFirPacket ;; ret tt
  | OpInit r u => _ <- init r u ;; ret tt
  | OpClose => close
  end.

End Packetizer.

(** ** Concrete environments and frames

    Closed instances of the statements below are evaluated in these. *)

(** A stand-in for [findNALU], which is not part of the file: an Annex-B
    scanner that looks for the first start code [00 00 01] among the [size]
    bytes at [payload + offset], reports -1 when there is none, and otherwise
    reports the unit behind it, which ends before the next [00 00 00] or
    [00 00 01] or with the buffer. *)
Fixpoint start_code_at (bytes : list Z) (i : Z) : option Z :=
  match bytes with
  | [] => None
  | b0 :: rest =>
      match b0, rest with
      | 0, 0 :: 1 :: _ => Some i
      | _, _ => start_code_at rest (i + 1)
      end
  end.

Fixpoint unit_length (bytes : list Z) : Z :=
  match bytes with
  | [] => 0
  | b0 :: rest =>
      match b0, rest with
      | 0, 0 :: 0 :: _ => 0
      | 0, 0 :: 1 :: _ => 0
      | _, _ => 1 + unit_length rest
      end
  end.

Definition annexb_scanner (payload : list Z) (offset size : Z) : Z * Z * Z :=
  let view := firstn (Z.to_nat size) (skipn (Z.to_nat offset) payload) in
  match start_code_at view 0 with
  | None => (-1, 0, 0)
  | Some i =>
      let nal_start := i + 3 in
      let nal_end := nal_start + unit_length (skipn (Z.to_nat nal_start) view) in
      (nal_end - nal_start, nal_start, nal_end)
  end.

Definition sample_rtp : RtpRtcp := {| SSRC := 305419896 |}.

(** An engine that accepts every registration; sinks with an even handle
    expose a feedback source; a stand-in for [calcBitrate] that gives 1200
    kbps at 640x480. *)
Definition sample_env (ndebug : bool) : Env :=
  {| NDEBUG := ndebug;
     calcBitrate := fun w h => w * h / 256;
     findNALU := annexb_scanner;
     CreateRtpRtcp := Some sample_rtp;
     RegisterSendPayload_result := fun _ => 0;
     IncomingRtcpPacket_result := fun _ _ => 0;
     getFeedbackSource := fun s => if Nat.even s then Some (S s) else None |}.

(** The same, assertions on, with a [calcBitrate] that answers [kbps]
    whatever the size. *)
Definition estimate_env (kbps : Z) : Env :=
  {| NDEBUG := false;
     calcBitrate := fun _ _ => kbps;
     findNALU := annexb_scanner;
     CreateRtpRtcp := Some sample_rtp;
     RegisterSendPayload_result := fun _ => 0;
     IncomingRtcpPacket_result := fun _ _ => 0;
     getFeedbackSource := fun s => if Nat.even s then Some (S s) else None |}.

(** The same with an engine that rejects every registration. *)
Definition rejecting_env (ndebug : bool) : Env :=
  {| NDEBUG := ndebug;
     calcBitrate := fun w h => w * h / 256;
     findNALU := annexb_scanner;
     CreateRtpRtcp := Some sample_rtp;
     RegisterSendPayload_result := fun _ => -1;
     IncomingRtcpPacket_result := fun _ _ => 0;
     getFeedbackSource := fun s => if Nat.even s then Some (S s) else None |}.

(** A freshly constructed instance ([construct] ends in this state). *)
Definition fresh : VideoFramePacketizer :=
  {| m_enabled := true; m_keyFrameArrived := false;
     m_frameFormat := FRAME_FORMAT_UNKNOWN; m_frameWidth := 0; m_frameHeight := 0;
     videoSink_ := None; m_rtpRtcp := Some sample_rtp |}.

(** An instance that is streaming 640x480 VP8. *)
Definition streaming_vp8 : VideoFramePacketizer :=
  {| m_enabled := true; m_keyFrameArrived := true;
     m_frameFormat := FRAME_FORMAT_VP8; m_frameWidth := 640; m_frameHeight := 480;
     videoSink_ := None; m_rtpRtcp := Some sample_rtp |}.

(** The same with sink 2 bound. *)
Definition bound_vp8 : VideoFramePacketizer :=
  {| m_enabled := true; m_keyFrameArrived := true;
     m_frameFormat := FRAME_FORMAT_VP8; m_frameWidth := 640; m_frameHeight := 480;
     videoSink_ := Some 2%nat; m_rtpRtcp := Some sample_rtp |}.

(** A fragmentation header with no entry left. *)
Definition full_header : RTPFragmentationHeader :=
  repeat (0, 0) (Pos.to_nat 65535).

Definition sample_frame (f : FrameFormat) (key : bool) (bytes : list Z) : Frame :=
  {| format := f; payload := bytes; length := Z.of_nat (List.length bytes);
     timeStamp := 90000;
     additionalInfo_video := {| width := 640; height := 480; isKeyFrame := key |} |}.

(** A payload with one NAL unit of two bytes behind a four-byte start code,
    followed by three bytes of zero padding. *)
Definition sample_payload : list Z := [0; 0; 0; 1; 103; 66; 0; 0; 0].

(** A payload with two NAL units, the first behind a four-byte and the second
    behind a three-byte start code. *)
Definition two_unit_payload : list Z := [0; 0; 0; 1; 103; 66; 0; 0; 1; 65; 154].

(** A session: a key frame, a disable and re-enable, a frame that is not a
    key frame, an unbind, a change of size. *)
Definition sample_script : list (Env * Op) :=
  [ (sample_env true, OpOnFrame (sample_frame FRAME_FORMAT_H264 true sample_payload));
    (sample_env true, OpEnable false);
    (rejecting_env true, OpEnable true);
    (sample_env true, OpOnFrame (sample_frame FRAME_FORMAT_VP8 false sample_payload));
    (sample_env true, OpUnbindTransport);
    (rejecting_env true, OpSetSendCodec FRAME_FORMAT_I420 320 240);
    (sample_env true, OpClose) ].

(** ** Vocabulary of the statements *)

Definition is_send (c : Call) : bool :=
  match c with SendOutgoingData _ _ _ _ _ _ _ _ => true | _ => false end.

Definition is_feedback (c : Call) : bool :=
  match c with deliverFeedbackMsg _ => true | _ => false end.

Definition keyFrameRequest : Call :=
  deliverFeedbackMsg {| type := VIDEO_FEEDBACK; cmd := REQUEST_KEY_FRAME |}.

(** A sequence of method calls on one instance; each call comes with the
    environment it runs in, so collaborators may answer differently from one
    call to the next. *)
Fixpoint run (script : list (Env * Op)) : M unit :=
  match script with
  | [] => ret tt
  | (env, op) :: rest => run_op env op ;; run rest
  end.

(** A method body that never resets [m_keyFrameArrived]. *)
Definition keeps_gate {A} (m : M A) : Prop :=
  forall st a st' calls,
    m st = Done a st' calls ->
    m_keyFrameArrived st = true -> m_keyFrameArrived st' = true.

(** The members [updateCodecState] leaves behind: the frame's format and
    size in the cache. *)
Definition cached (frame : Frame) (st : VideoFramePacketizer) : VideoFramePacketizer :=
  set_codec_state (format frame) (width (additionalInfo_video frame))
    (height (additionalInfo_video frame)) st.

(** The payload type and header tag of the two NAL-structured formats. *)
Definition nal_payload_type (f : FrameFormat) : PayloadType :=
  match f with FRAME_FORMAT_H264 => H264_90000_PT | _ => H265_90000_PT end.

Definition nal_header (f : FrameFormat) : RTPVideoHeader :=
  match f with
  | FRAME_FORMAT_H264 => {| codec := kRtpVideoH264; codecHeader_initialised := false |}
  | _ => {| codec := kRtpVideoH265; codecHeader_initialised := false |}
  end.

(** ** Vocabulary of the further statements *)

(** A method body that keeps a property of the members. *)
Definition keeps (P : VideoFramePacketizer -> Prop) {A} (m : M A) : Prop :=
  forall st a st' calls, m st = Done a st' calls -> P st -> P st'.

(** A method body that never calls [SendOutgoingData]. *)
Definition never_sends {A} (m : M A) : Prop :=
  forall st a st' calls, m st = Done a st' calls -> filter is_send calls = [].

Definition is_deliverVideoData (c : Call) : bool :=
  match c with deliverVideoData _ _ _ => true | _ => false end.

(** The calls [setSendCodec] can make. *)
Definition is_codec_setup (c : Call) : bool :=
  match c with
  | SetStartBitrate _ | SetMinMaxBitrate _ _ | RegisterSendPayload _ => true
  | _ => false
  end.

(** Fragmentation entries that lie between [lo] and [hi], in order and
    without overlap. *)
Fixpoint fragments_between (lo hi : Z) (entries : RTPFragmentationHeader) : Prop :=
  match entries with
  | [] => True
  | (offset, len) :: rest =>
      lo <= offset /\ 0 <= len /\ offset + len <= hi
      /\ fragments_between (offset + len) hi rest
  end.

(** The fault of the 65536th unit of a frame: the assertion of
    [VerifyAndAllocateFragmentationHeader], or without assertions the write
    behind the arrays. *)
Definition header_full_fault (env : Env) : Fault :=
  if NDEBUG env then OutOfBoundsWrite else AssertionFailed.

(** A scanner whose every reported unit lies within the bytes it was given
    and behind a start code; [r] and [s] are the [int]s the scan reads. *)
Definition scanner_in_bounds (env : Env) (payload : list Z) : Prop :=
  forall offset size r s e,
    0 < size < 2 ^ 31 ->
    findNALU env payload offset size = (r, s, e) -> 0 <= to_int32 r ->
    0 <= to_int32 s /\ 0 < to_int32 s + to_int32 r <= size.

(** The payload type and header of the two formats sent without a
    fragmentation header. *)
Definition vpx_payload_type (f : FrameFormat) : PayloadType :=
  match f with FRAME_FORMAT_VP8 => VP8_90000_PT | _ => VP9_90000_PT end.

Definition vpx_header (f : FrameFormat) : RTPVideoHeader :=
  match f with
  | FRAME_FORMAT_VP8 => {| codec := kRtpVideoVp8; codecHeader_initialised := true |}
  | _ => {| codec := kRtpVideoVp9; codecHeader_initialised := true |}
  end.

(** The one call that sends a frame. *)
Definition sendCall (pt : PayloadType) (frame : Frame)
    (frag : option RTPFragmentationHeader) (h : RTPVideoHeader) : Call :=
  SendOutgoingData kVideoFrameKey pt (timeStamp frame) (timeStamp frame / 90)
    (payload frame) (length frame) frag h.

(** The calls that only ask for a key frame. *)
Definition is_request_op (op : Op) : bool :=
  match op with
  | OpOnReceivedIntraFrameRequest _ | OpSendFirPacket => true
  | _ => false
  end.

(** A session in which no key frame arrives. *)
Definition closed_script : list (Env * Op) :=
  [ (sample_env true, OpOnFrame (sample_frame FRAME_FORMAT_H264 false sample_payload));
    (sample_env true, OpEnable true);
    (rejecting_env false, OpSendFirPacket);
    (sample_env false, OpBindTransport (Some 2%nat));
    (sample_env false, OpReceiveRtpData [128; 96] 2 VIDEO 0);
    (sample_env true, OpOnFrame (sample_frame FRAME_FORMAT_VP8 false sample_payload)) ].

Definition request_script : list (Env * Op) :=
  [ (sample_env true, OpSendFirPacket);
    (rejecting_env false, OpOnReceivedIntraFrameRequest 7);
    (sample_env false, OpSendFirPacket) ].

(** * Facts

    ** Double arithmetic: the rounding step in integer terms *)

(** *** The shift register

    One shift halves the mantissa, keeps the bit shifted out as the round
    bit and merges the old round bit into the sticky bit. *)
Lemma shr_1_m mrs : 0 <= shr_m mrs -> shr_m (shr_1 mrs) = shr_m mrs / 2.
Proof.
  destruct mrs as [m r s]; simpl. intros Hm.
  destruct m as [|p|p]; try lia.
  - reflexivity.
  - destruct p; simpl.
    + rewrite Pos2Z.inj_xI. apply Z.div_unique with 1; lia.
    + rewrite Pos2Z.inj_xO. apply Z.div_unique with 0; lia.
    + reflexivity.
Qed.

Lemma shr_1_r mrs : 0 <= shr_m mrs -> shr_r (shr_1 mrs) = Z.odd (shr_m mrs).
Proof.
  destruct mrs as [m r s]; simpl. intros Hm.
  destruct m as [|p|p]; try lia; [reflexivity|]. destruct p; reflexivity.
Qed.

Lemma shr_1_s mrs : shr_s (shr_1 mrs) = shr_r mrs || shr_s mrs.
Proof.
  destruct mrs as [m r s]; simpl.
  destruct m as [|p|p]; try reflexivity; destruct p; reflexivity.
Qed.

Lemma mod_pow2_succ m j : 0 <= j ->
  m mod 2 ^ (j + 1) = m mod 2 ^ j + 2 ^ j * ((m / 2 ^ j) mod 2).
Proof.
  intros Hj. rewrite Z.pow_add_r, Z.pow_1_r by lia.
  apply Z.rem_mul_r; [ apply Z.pow_nonzero; lia | lia ].
Qed.

Lemma mod_pow2_pred m j : 1 <= j ->
  m mod 2 ^ j = m mod 2 ^ (j - 1) + 2 ^ (j - 1) * ((m / 2 ^ (j - 1)) mod 2).
Proof.
  intros Hj. rewrite <- mod_pow2_succ by lia. do 2 f_equal. lia.
Qed.

Lemma odd_mod2 x : Z.odd x = negb (x mod 2 =? 0).
Proof.
  rewrite Zmod_odd. destruct (Z.odd x); reflexivity.
Qed.

(** One shift takes the register from [j] to [j + 1] shifts of [m]. *)
Lemma shifted_step m j mrs :
  0 <= m -> 0 <= j -> shifted m j mrs -> shifted m (j + 1) (shr_1 mrs).
Proof.
  intros Hm Hj (Hq & H0 & H1).
  assert (Hpos : 0 < 2 ^ j) by (apply Z.pow_pos_nonneg; lia).
  assert (Hge : 0 <= shr_m mrs) by (rewrite Hq; apply Z.div_pos; lia).
  repeat split.
  - rewrite shr_1_m, Hq by assumption.
    rewrite Z.pow_add_r, Z.pow_1_r by lia.
    rewrite Z.div_div by lia. reflexivity.
  - lia.
  - lia.
  - rewrite shr_1_r, Hq by assumption. f_equal. f_equal. f_equal. lia.
  - rewrite shr_1_s. replace (j + 1 - 1) with j by lia.
    destruct (Z.eq_dec j 0) as [->|Hne].
    + destruct (H0 eq_refl) as [-> ->]. simpl. rewrite Z.mod_1_r. reflexivity.
    + destruct H1 as [-> ->]; [lia|].
      rewrite (mod_pow2_pred m j) by lia.
      rewrite odd_mod2.
      assert (0 < 2 ^ (j - 1)) by (apply Z.pow_pos_nonneg; lia).
      pose proof (Z.mod_pos_bound m (2 ^ (j - 1)) ltac:(lia)).
      pose proof (Z.mod_pos_bound (m / 2 ^ (j - 1)) 2 ltac:(lia)).
      destruct (Z.eqb_spec ((m / 2 ^ (j - 1)) mod 2) 0) as [E|E];
      destruct (Z.eqb_spec (m mod 2 ^ (j - 1)) 0) as [F|F]; simpl;
      symmetry; rewrite ?negb_true_iff, ?negb_false_iff, ?Z.eqb_eq, ?Z.eqb_neq; nia.
Qed.

(** [iter_pos shr_1 p] is [p] shifts. *)
Lemma shifted_iter m : 0 <= m ->
  forall p j mrs, 0 <= j -> shifted m j mrs ->
                  shifted m (j + Zpos p) (iter_pos shr_1 p mrs).
Proof.
  intros Hm. induction p as [p IH|p IH|]; intros j mrs Hj H; simpl.
  - replace (j + Z.pos p~1) with (j + 1 + Z.pos p + Z.pos p) by lia.
    apply IH; [lia|]. apply IH; [lia|]. apply shifted_step; assumption.
  - replace (j + Z.pos p~0) with (j + Z.pos p + Z.pos p) by lia.
    apply IH; [lia|]. apply IH; assumption.
  - apply shifted_step; assumption.
Qed.

Lemma shifted_0 m : shifted m 0 {| shr_m := m; shr_r := false; shr_s := false |}.
Proof.
  repeat split; simpl; try lia. rewrite Z.div_1_r. reflexivity.
Qed.

(** After [n >= 1] shifts, rounding the register to nearest even is [rne m n]. *)
Lemma shifted_rne m n mrs :
  0 <= m -> 1 <= n -> shifted m n mrs ->
  round_nearest_even (shr_m mrs) (loc_of_shr_record mrs) = rne m n.
Proof.
  intros Hm Hn (Hq & _ & H1). destruct (H1 Hn) as [Hr Hs]. clear H1.
  destruct mrs as [q r s]; cbn [shr_m shr_r shr_s] in *. subst q r s.
  unfold rne; cbv zeta.
  pose proof (mod_pow2_pred m n Hn) as Hsplit.
  assert (Hpow : 2 ^ n = 2 * 2 ^ (n - 1)).
  { replace n with (n - 1 + 1) at 1 by lia.
    rewrite Z.pow_add_r, Z.pow_1_r by lia. lia. }
  assert (Hh : 0 < 2 ^ (n - 1)) by (apply Z.pow_pos_nonneg; lia).
  pose proof (Z.mod_pos_bound m (2 ^ (n - 1)) Hh) as Ht.
  pose proof (Z.mod_pos_bound (m / 2 ^ (n - 1)) 2 ltac:(lia)) as Hb.
  rewrite odd_mod2.
  destruct (Z.compare_spec (2 * (m mod 2 ^ n)) (2 ^ n)) as [C|C|C];
    destruct (Z.eqb_spec ((m / 2 ^ (n - 1)) mod 2) 0) as [E|E];
    destruct (Z.eqb_spec (m mod 2 ^ (n - 1)) 0) as [F|F];
    cbn [negb loc_of_shr_record round_nearest_even];
    try reflexivity; exfalso; nia.
Qed.

(** *** The number of bits of a mantissa *)
Lemma digits2_pos_size p : digits2_pos p = Pos.size p.
Proof. induction p; simpl; congruence. Qed.

Lemma digits2_pos_bounds p :
  2 ^ (Zpos (digits2_pos p) - 1) <= Zpos p < 2 ^ Zpos (digits2_pos p).
Proof.
  rewrite digits2_pos_size. split.
  - pose proof (Pos.size_le p) as H.
    apply Pos2Z.pos_le_pos in H. rewrite Pos2Z.inj_pow in H.
    change (Z.pos 2) with 2 in H.
    replace (Zpos (Pos.size p)) with (Zpos (Pos.size p) - 1 + 1) in H by lia.
    rewrite Z.pow_add_r, Z.pow_1_r in H by lia. lia.
  - pose proof (Pos.size_gt p) as H.
    apply Pos2Z.pos_lt_pos in H. rewrite Pos2Z.inj_pow in H. exact H.
Qed.

(** The number of bits is determined by the power-of-two bracket. *)
Lemma digits2_pos_unique p k :
  2 ^ (k - 1) <= Zpos p < 2 ^ k -> Zpos (digits2_pos p) = k.
Proof.
  intros [Hlo Hhi]. pose proof (digits2_pos_bounds p) as [Dlo Dhi].
  set (d := Zpos (digits2_pos p)) in *.
  assert (0 < d) by (subst d; lia).
  destruct (Z.lt_trichotomy d k) as [L|[E|G]]; [exfalso|exact E|exfalso].
  - assert (2 ^ d <= 2 ^ (k - 1)) by (apply Z.pow_le_mono_r; lia). lia.
  - destruct (Z.le_gt_cases k 0) as [K|K].
    + assert (2 ^ k <= 2 ^ 0) by (apply Z.pow_le_mono_r; lia).
      change (2 ^ 0) with 1 in *. lia.
    + assert (2 ^ k <= 2 ^ (d - 1)) by (apply Z.pow_le_mono_r; lia). lia.
Qed.

Lemma rne_bounds m n : m / 2 ^ n <= rne m n <= m / 2 ^ n + 1.
Proof.
  unfold rne; cbv zeta.
  destruct (2 * (m mod 2 ^ n) ?= 2 ^ n); [destruct (Z.even _)| |]; lia.
Qed.

(** *** The rounding step of binary64

    [shr_fexp], [shr], [fexp] and [shl_align] at precision 53 and maximal
    exponent 1024, in the Standard Library's integer operations. *)
Lemma shr_fexp_eq m e l :
  shr_fexp 53 1024 m e l
  = shr (shr_record_of_loc m l) e (Z.max (Zdigits2 m + e - 53) (-1074) - e).
Proof. reflexivity. Qed.

Lemma shr_pos mrs e p : shr mrs e (Zpos p) = (iter_pos shr_1 p mrs, e + Zpos p).
Proof. reflexivity. Qed.

Lemma shr_0 mrs e : shr mrs e 0 = (mrs, e).
Proof. reflexivity. Qed.

(** The second normalisation of [binary_round_aux] and the final
    classification, for a rounded mantissa of 53 bits or the carry [2^53]. *)
Lemma renormalize_truncate q e :
  2 ^ 52 <= q <= 2 ^ 53 -> -1074 <= e < 0 ->
  Double.truncate
    (let '(mrs, e') := shr_fexp 53 1024 q e loc_Exact in
     match shr_m mrs with
     | Z0 => S754_zero false
     | Zpos m => if e' <=? 1024 - 53 then S754_finite false m e' else S754_infinity false
     | Zneg _ => S754_nan
     end) = Some (q / 2 ^ (- e)).
Proof.
  intros Hq He.
  destruct q as [|q|q]; try (exfalso; lia).
  rewrite shr_fexp_eq. unfold Zdigits2.
  destruct (Z.eq_dec (Zpos q) (2 ^ 53)) as [E|E].
  - injection E as ->. change (Z.pos (digits2_pos _)) with 54.
    rewrite Z.max_l by lia. replace (54 + e - 53 - e) with 1 by lia.
    rewrite shr_pos.
    cbn [shr_record_of_loc iter_pos shr_1 shr_m].
    replace (e + 1 <=? 1024 - 53) with true by (symmetry; apply Z.leb_le; lia).
    unfold Double.truncate, cond_Zopp.
    destruct (Z.leb_spec 0 (e + 1)) as [L|L].
    + assert (e = -1) as -> by lia. reflexivity.
    + f_equal. replace (- e) with (1 + - (e + 1)) by lia.
      rewrite Z.pow_add_r by lia.
      rewrite <- Z.div_div by (try apply Z.pow_pos_nonneg; lia).
      reflexivity.
  - rewrite (digits2_pos_unique q 53) by (change (53 - 1) with 52; lia).
    rewrite Z.max_l by lia. replace (53 + e - 53 - e) with 0 by lia.
    rewrite shr_0.
    cbn [shr_record_of_loc shr_m].
    replace (e <=? 1024 - 53) with true by (symmetry; apply Z.leb_le; lia).
    unfold Double.truncate, cond_Zopp.
    replace (0 <=? e) with false by (symmetry; apply Z.leb_gt; lia).
    reflexivity.
Qed.

(** Multiplication's rounding step followed by truncation: the product
    mantissa [P] at exponent [e] loses [n] bits, rounded to nearest even, and
    the integral part of the result is what is left above the binary point. *)
Lemma round_aux_truncate (P : positive) (e n : Z) :
  n = Zpos (digits2_pos P) - 53 -> 1 <= n -> -1074 <= e + n < 0 ->
  Double.truncate (binary_round_aux 53 1024 false (Zpos P) e loc_Exact)
  = Some (rne (Zpos P) n / 2 ^ (- (e + n))).
Proof.
  intros Hn Hn1 He.
  pose proof (digits2_pos_bounds P) as HP.
  unfold binary_round_aux.
  rewrite (shr_fexp_eq (Zpos P)). unfold Zdigits2.
  rewrite Z.max_l by lia.
  replace (Z.pos (digits2_pos P) + e - 53 - e) with n by lia.
  destruct n as [|pn|pn]; try (exfalso; lia).
  rewrite shr_pos.
  cbn [shr_record_of_loc].
  pose proof (shifted_iter (Zpos P) (Pos2Z.is_nonneg P) pn 0 _ (Z.le_refl 0)
                (shifted_0 (Zpos P)))
    as Hsh.
  rewrite Z.add_0_l in Hsh.
  rewrite (shifted_rne (Zpos P) (Zpos pn) _ (Pos2Z.is_nonneg P) Hn1 Hsh).
  apply renormalize_truncate; [|lia].
  pose proof (rne_bounds (Zpos P) (Zpos pn)) as Hr.
  assert (Hpn : 0 < 2 ^ Zpos pn) by (apply Z.pow_pos_nonneg; lia).
  replace (Zpos (digits2_pos P) - 1) with (52 + Zpos pn) in HP by lia.
  replace (Zpos (digits2_pos P)) with (53 + Zpos pn) in HP by lia.
  rewrite !Z.pow_add_r in HP by lia.
  assert (2 ^ 52 <= Zpos P / 2 ^ Zpos pn).
  { apply Z.div_le_lower_bound; lia. }
  assert (Zpos P / 2 ^ Zpos pn < 2 ^ 53).
  { apply Z.div_lt_upper_bound; lia. }
  lia.
Qed.

(** Replaces every power of two with a constant exponent by its value. *)
Ltac eval_pow2 :=
  repeat match goal with
    | |- context [2 ^ ?x] =>
        let v := eval vm_compute in (2 ^ x) in
        lazymatch v with
        | Zpos _ => change (2 ^ x) with v
        end
    | H : context [2 ^ ?x] |- _ =>
        let v := eval vm_compute in (2 ^ x) in
        lazymatch v with
        | Zpos _ => change (2 ^ x) with v in H
        end
    end.

(** *** Nine tenths

    The arithmetic heart: for a [d]-bit integer [c], the product of its
    53-bit mantissa with the mantissa of the double [0.9], rounded to 53 bits
    and cut at the binary point, is [9 * c / 10].  The double [0.9] exceeds
    nine tenths by [2 / (10 * 2^53)], too little to carry any product of a
    32-bit integer over the next integer, and when [9 * c / 10] is itself an
    integer the excess is below half a unit in the last place and is rounded
    away.  Proved case by case on [d] and on the bits lost, each case being
    linear integer arithmetic. *)
Lemma rne_scale_0_9 c d n :
  1 <= d <= 32 -> 2 ^ (d - 1) <= c < 2 ^ d -> 52 <= n <= 53 ->
  2 ^ (n + 52) <= c * 2 ^ (53 - d) * 8106479329266893 < 2 ^ (n + 53) ->
  rne (c * 2 ^ (53 - d) * 8106479329266893) n / 2 ^ (106 - d - n) = 9 * c / 10.
Proof.
  intros Hd Hc Hn HP.
  assert (n = 52 \/ n = 53) as [-> | ->] by lia;
  assert (Hd' : (d = 1 \/ d = 2 \/ d = 3 \/ d = 4 \/ d = 5 \/ d = 6 \/ d = 7 \/ d = 8) \/
          (d = 9 \/ d = 10 \/ d = 11 \/ d = 12 \/ d = 13 \/ d = 14 \/ d = 15 \/ d = 16) \/
          (d = 17 \/ d = 18 \/ d = 19 \/ d = 20 \/ d = 21 \/ d = 22 \/ d = 23 \/ d = 24) \/
          (d = 25 \/ d = 26 \/ d = 27 \/ d = 28 \/ d = 29 \/ d = 30 \/ d = 31 \/ d = 32))
    by lia;
  clear Hd Hn;
  repeat (destruct Hd' as [Hd' | Hd']); subst d;
  unfold rne; cbv zeta; eval_pow2;
  match goal with
  | |- context [?a ?= ?b] =>
      destruct (Z.compare_spec a b) as [C|C|C]; [ destruct (Z.even _) | | ]
  end;
  Z.div_mod_to_equations; lia.
Qed.

Lemma fexp_eq e : fexp 53 1024 e = Z.max (e - 53) (-1074).
Proof. reflexivity. Qed.

Lemma shl_align_eq mx ex ex' :
  shl_align mx ex ex'
  = match ex' - ex with
    | Zneg d => (Pos.iter xO mx d, ex')
    | _ => (mx, ex)
    end.
Proof. reflexivity. Qed.

(** *** Conversion from integers and multiplication *)
Lemma iter_xO_Z p k : Zpos (Pos.iter xO p k) = Zpos p * 2 ^ Zpos k.
Proof.
  induction k as [|k IH] using Pos.peano_ind.
  - simpl. lia.
  - rewrite Pos.iter_succ, Pos2Z.inj_xO, IH, Pos2Z.inj_succ, Z.pow_succ_r by lia.
    lia.
Qed.

(** A mantissa of exactly 53 bits is left alone by the rounding step. *)
Lemma round_aux_exact m e :
  Zpos (digits2_pos m) = 53 -> -1074 <= e <= 971 ->
  binary_round_aux 53 1024 false (Zpos m) e loc_Exact = S754_finite false m e.
Proof.
  intros Hd He. unfold binary_round_aux.
  rewrite (shr_fexp_eq (Zpos m)). unfold Zdigits2. rewrite Hd.
  rewrite Z.max_l by lia. replace (53 + e - 53 - e) with 0 by lia.
  rewrite shr_0. cbn [shr_record_of_loc shr_m loc_of_shr_record round_nearest_even].
  rewrite shr_fexp_eq. unfold Zdigits2. rewrite Hd.
  rewrite Z.max_l by lia. replace (53 + e - 53 - e) with 0 by lia.
  rewrite shr_0. cbn [shr_record_of_loc shr_m].
  replace (e <=? 1024 - 53) with true by (symmetry; apply Z.leb_le; lia).
  reflexivity.
Qed.

(** The double of a positive integer of at most 53 bits: the integer shifted
    left to a 53-bit mantissa. *)
Lemma of_Z_pos p :
  Zpos (digits2_pos p) <= 53 ->
  exists m, Double.of_Z (Zpos p) = S754_finite false m (Zpos (digits2_pos p) - 53)
            /\ Zpos m = Zpos p * 2 ^ (53 - Zpos (digits2_pos p))
            /\ Zpos (digits2_pos m) = 53.
Proof.
  intros Hd. pose proof (digits2_pos_bounds p) as Hb.
  set (d := Zpos (digits2_pos p)) in *.
  unfold Double.of_Z, binary_normalize, binary_round.
  rewrite fexp_eq, shl_align_eq. fold d.
  rewrite Z.max_l by lia.
  replace (d + 0 - 53 - 0) with (d - 53) by lia.
  destruct (d - 53) as [|k|k] eqn:Hk; try (exfalso; lia).
  - exists p. assert (Hd53 : d = 53) by lia.
    rewrite round_aux_exact by (fold d; lia).
    split; [reflexivity|]. split; [|lia].
    rewrite Hd53. change (2 ^ (53 - 53)) with 1. lia.
  - exists (Pos.iter xO p k).
    assert (Hm : Zpos (Pos.iter xO p k) = Zpos p * 2 ^ (53 - d)).
    { rewrite iter_xO_Z. do 2 f_equal. lia. }
    assert (Hdm : Zpos (digits2_pos (Pos.iter xO p k)) = 53).
    { apply digits2_pos_unique. rewrite Hm.
      assert (0 < 2 ^ (53 - d)) by (apply Z.pow_pos_nonneg; lia).
      replace (2 ^ (53 - 1)) with (2 ^ (d - 1) * 2 ^ (53 - d))
        by (rewrite <- Z.pow_add_r by lia; f_equal; lia).
      replace (2 ^ 53) with (2 ^ d * 2 ^ (53 - d))
        by (rewrite <- Z.pow_add_r by lia; f_equal; lia).
      nia. }
    rewrite round_aux_exact by (rewrite ?Hdm; lia).
    split; [f_equal; lia|]. split; [exact Hm | exact Hdm].
Qed.

Lemma lit_0_9_eq : Double.lit_0_9 = S754_finite false 8106479329266893 (-53).
Proof. vm_compute. reflexivity. Qed.

Lemma lit_1_eq : Double.lit_1 = S754_finite false 4503599627370496 (-52).
Proof. vm_compute. reflexivity. Qed.

(** The product of two positive finite doubles is the rounding of the
    product of the mantissas at the sum of the exponents. *)
Lemma mul_finite m e M eM :
  Double.mul (S754_finite false m e) (S754_finite false M eM)
  = binary_round_aux 53 1024 false (Zpos (m * M)) (e + eM) loc_Exact.
Proof. reflexivity. Qed.

(** The product of a positive 32-bit integer and a double with a 53-bit
    mantissa [M] at exponent [eM], truncated: the mantissas' product loses
    [n] bits, 52 or 53. *)
Lemma mul_truncate p M eM :
  Zpos p < 2 ^ 32 -> Zpos (digits2_pos M) = 53 -> -53 <= eM <= -52 ->
  let d := Zpos (digits2_pos p) in
  let P := Zpos p * 2 ^ (53 - d) * Zpos M in
  exists n, 52 <= n <= 53 /\ 2 ^ (n + 52) <= P < 2 ^ (n + 53) /\
    Double.truncate (Double.mul (Double.of_Z (Zpos p)) (S754_finite false M eM))
    = Some (rne P n / 2 ^ (53 - d - eM - n)).
Proof.
  intros Hp HM HeM d P.
  pose proof (digits2_pos_bounds p) as Hb. fold d in Hb.
  assert (Hd : 1 <= d <= 32).
  { split; [subst d; lia|].
    destruct (Z.le_gt_cases d 32) as [L|G]; [exact L|exfalso].
    assert (2 ^ 32 <= 2 ^ (d - 1)) by (apply Z.pow_le_mono_r; lia). lia. }
  destruct (of_Z_pos p ltac:(fold d; lia)) as (m & Hof & Hm & Hdm).
  fold d in Hof, Hm. rewrite Hof.
  rewrite mul_finite.
  pose proof (digits2_pos_bounds m) as Hbm. rewrite Hdm in Hbm.
  pose proof (digits2_pos_bounds M) as HbM. rewrite HM in HbM.
  pose proof (digits2_pos_bounds (m * M)) as HbP.
  assert (HP : Zpos (m * M) = P) by (subst P; rewrite Pos2Z.inj_mul, Hm; reflexivity).
  set (D := Zpos (digits2_pos (m * M))) in *.
  change (53 - 1) with 52 in *.
  assert (HprodLo : 2 ^ 104 <= Zpos (m * M)).
  { rewrite Pos2Z.inj_mul. change (2 ^ 104) with (2 ^ 52 * 2 ^ 52). nia. }
  assert (HprodHi : Zpos (m * M) < 2 ^ 106).
  { rewrite Pos2Z.inj_mul. change (2 ^ 106) with (2 ^ 53 * 2 ^ 53). nia. }
  assert (HD : 105 <= D <= 106).
  { split.
    - destruct (Z.le_gt_cases 105 D) as [L|G]; [exact L|exfalso].
      assert (D > 0) by (subst D; lia).
      assert (2 ^ D <= 2 ^ 104) by (apply Z.pow_le_mono_r; lia). lia.
    - destruct (Z.le_gt_cases D 106) as [L|G]; [exact L|exfalso].
      assert (2 ^ 106 <= 2 ^ (D - 1)) by (apply Z.pow_le_mono_r; lia). lia. }
  exists (D - 53). split; [lia|]. split.
  - rewrite <- HP. replace (D - 53 + 52) with (D - 1) by lia.
    replace (D - 53 + 53) with D by lia. exact HbP.
  - rewrite (round_aux_truncate (m * M) (d - 53 + eM) (D - 53)) by (fold D; lia).
    rewrite HP. do 3 f_equal. lia.
Qed.

(** *** The two factors of [setSendCodec] *)
Lemma uint32_digits p : Zpos p < 2 ^ 32 ->
  1 <= Zpos (digits2_pos p) <= 32.
Proof.
  intros Hp. pose proof (digits2_pos_bounds p) as Hb.
  split; [lia|].
  destruct (Z.le_gt_cases (Zpos (digits2_pos p)) 32) as [L|G]; [exact L|exfalso].
  assert (2 ^ 32 <= 2 ^ (Zpos (digits2_pos p) - 1)) by (apply Z.pow_le_mono_r; lia).
  lia.
Qed.

(** Truncating the double product with [0.9] is the integer [9 * c / 10]. *)
Lemma scale_0_9 c : 0 <= c < 2 ^ 32 ->
  Double.to_uint32 (Double.mul (Double.of_Z c) Double.lit_0_9) = Some (9 * c / 10).
Proof.
  intros Hc. destruct c as [|p|p]; try (exfalso; lia).
  - vm_compute. reflexivity.
  - rewrite lit_0_9_eq.
    destruct (mul_truncate p 8106479329266893 (-53)) as (n & Hn & HP & Ht);
      [lia | reflexivity | lia |].
    pose proof (uint32_digits p ltac:(lia)) as Hd.
    pose proof (digits2_pos_bounds p) as Hb.
    unfold Double.to_uint32. rewrite Ht. clear Ht.
    replace (53 - Zpos (digits2_pos p) - -53 - n)
      with (106 - Zpos (digits2_pos p) - n) by lia.
    change (Zpos 8106479329266893) with 8106479329266893 in *.
    rewrite (rne_scale_0_9 _ _ n Hd Hb Hn HP).
    assert (0 <= 9 * Zpos p / 10 < 2 ^ 32).
    { change (2 ^ 32) with 4294967296 in *. Z.div_mod_to_equations. lia. }
    replace (0 <=? 9 * Zpos p / 10) with true by (symmetry; apply Z.leb_le; lia).
    replace (9 * Zpos p / 10 <? 2 ^ 32) with true by (symmetry; apply Z.ltb_lt; lia).
    reflexivity.
Qed.

(** Multiplying by the double [1] and truncating gives the integer back. *)
Lemma scale_1 c : 0 <= c < 2 ^ 32 ->
  Double.to_uint32 (Double.mul (Double.of_Z c) Double.lit_1) = Some c.
Proof.
  intros Hc. destruct c as [|p|p]; try (exfalso; lia).
  - vm_compute. reflexivity.
  - rewrite lit_1_eq.
    destruct (mul_truncate p 4503599627370496 (-52)) as (n & Hn & HP & Ht);
      [lia | reflexivity | lia |].
    pose proof (uint32_digits p ltac:(lia)) as Hd.
    pose proof (digits2_pos_bounds p) as Hb.
    unfold Double.to_uint32. rewrite Ht. clear Ht.
    set (d := Zpos (digits2_pos p)) in *.
    change (Zpos 4503599627370496) with (2 ^ 52) in *.
    assert (Hs : 0 < 2 ^ (53 - d)) by (apply Z.pow_pos_nonneg; lia).
    assert (Ha : 2 ^ 52 <= Zpos p * 2 ^ (53 - d) < 2 ^ 53).
    { replace (2 ^ 52) with (2 ^ (d - 1) * 2 ^ (53 - d))
        by (rewrite <- Z.pow_add_r by lia; f_equal; lia).
      replace (2 ^ 53) with (2 ^ d * 2 ^ (53 - d))
        by (rewrite <- Z.pow_add_r by lia; f_equal; lia).
      nia. }
    assert (n = 52) as ->.
    { assert (n = 52 \/ n = 53) as [E|E] by lia; [exact E|exfalso]. subst n.
      change (2 ^ (53 + 52)) with (2 ^ 53 * 2 ^ 52) in HP.
      change (2 ^ 52) with 4503599627370496 in *. nia. }
    unfold rne; cbv zeta.
    rewrite Z.mod_mul, Z.div_mul by (apply Z.pow_nonzero; lia).
    change (2 * 0 ?= 2 ^ 52) with Lt. cbv iota.
    replace (53 - d - -52 - 52) with (53 - d) by lia.
    rewrite Z.div_mul by lia.
    replace (0 <=? Zpos p) with true by (symmetry; apply Z.leb_le; lia).
    replace (Zpos p <? 2 ^ 32) with true by (symmetry; apply Z.ltb_lt; lia).
    reflexivity.
Qed.

(** ** The packetizer *)

Lemma FrameFormat_eqb_refl f : FrameFormat_eqb f f = true.
Proof. unfold FrameFormat_eqb. destruct (FrameFormat_eq_dec f f); congruence. Qed.

Lemma FrameFormat_eqb_eq f g : FrameFormat_eqb f g = true <-> f = g.
Proof.
  unfold FrameFormat_eqb. destruct (FrameFormat_eq_dec f g); split; congruence.
Qed.

Lemma FrameFormat_eqb_neq f g : f <> g -> FrameFormat_eqb f g = false.
Proof.
  intros H. unfold FrameFormat_eqb. destruct (FrameFormat_eq_dec f g); congruence.
Qed.

Lemma to_uint32_range z : 0 <= to_uint32 z < 2 ^ 32.
Proof. unfold to_uint32. apply Z.mod_pos_bound. reflexivity. Qed.

Lemma to_uint32_small z : 0 <= z < 2 ^ 32 -> to_uint32 z = z.
Proof. intros H. unfold to_uint32. apply Z.mod_small. exact H. Qed.

Lemma to_uint32_mul_l a b : to_uint32 (to_uint32 a * b) = to_uint32 (a * b).
Proof. unfold to_uint32. apply Z.mul_mod_idemp_l. discriminate. Qed.

Section PacketizerFacts.

Variable env : Env.

(** The target bitrate in kbps: the estimate, scaled by nine tenths (rounded
    down) for VP8. *)
Lemma targetKbps_eq f w h :
  targetKbps env f w h
  = Some (if FrameFormat_eqb f FRAME_FORMAT_VP8
          then 9 * to_uint32 (calcBitrate env w h) / 10
          else to_uint32 (calcBitrate env w h)).
Proof.
  unfold targetKbps.
  pose proof (to_uint32_range (calcBitrate env w h)) as Hr.
  destruct (FrameFormat_eqb f FRAME_FORMAT_VP8).
  - apply scale_0_9. exact Hr.
  - apply scale_1. exact Hr.
Qed.

(** [setSendCodec] in one equation. *)
Lemma setSendCodec_run f w h st :
  setSendCodec env f w h st =
  if FrameFormat_eqb f (m_frameFormat st) || NDEBUG env then
    match sendCodec f with
    | None => Done false st []
    | Some codec =>
        let target :=
          if FrameFormat_eqb f FRAME_FORMAT_VP8
          then 9 * to_uint32 (calcBitrate env w h) / 10
          else to_uint32 (calcBitrate env w h) in
        Done
          (match m_rtpRtcp st with
           | Some _ => negb (RegisterSendPayload_result env codec =? -1)
           | None => false
           end)
          st
          (SetStartBitrate (to_uint32 (target * 1000))
           :: SetMinMaxBitrate (to_uint32 (target / 4 * 1000))
                               (to_uint32 (2 * target * 1000))
           :: match m_rtpRtcp st with
              | Some _ => [RegisterSendPayload codec]
              | None => []
              end)
    end
  else Crash AssertionFailed.
Proof.
  unfold setSendCodec, bind, gets, assert. cbv beta iota.
  destruct (FrameFormat_eqb f (m_frameFormat st) || NDEBUG env); [|reflexivity].
  unfold ret. cbv beta iota.
  destruct (sendCodec f) as [codec|]; [|reflexivity].
  rewrite targetKbps_eq. cbv zeta.
  unfold TRANSMISSION_MAXBITRATE_MULTIPLIER. rewrite to_uint32_mul_l.
  unfold bind, call, gets. cbv beta iota.
  destruct (m_rtpRtcp st); reflexivity.
Qed.

Lemma setSendCodec_own_format w h st :
  exists b calls,
    setSendCodec env (m_frameFormat st) w h st = Done b st calls
    /\ (sendCodec (m_frameFormat st) = None -> calls = [])
    /\ forall c, In c calls -> is_send c = false /\ is_feedback c = false.
Proof.
  rewrite setSendCodec_run, FrameFormat_eqb_refl. cbn [orb].
  destruct (sendCodec (m_frameFormat st)) as [codec|].
  - eexists. eexists. split; [reflexivity|]. split; [discriminate|].
    intros c Hc. cbv zeta in Hc.
    destruct Hc as [<-|[<-|Hc]]; [split; reflexivity | split; reflexivity |].
    destruct (m_rtpRtcp st); [|contradiction].
    destruct Hc as [<-|[]]. split; reflexivity.
  - exists false, []. split; [reflexivity|]. split; [reflexivity|]. intros c [].
Qed.

Lemma cached_unchanged frame st :
  FrameFormat_eqb (format frame) (m_frameFormat st) = true ->
  (width (additionalInfo_video frame) =? m_frameWidth st) = true ->
  (height (additionalInfo_video frame) =? m_frameHeight st) = true ->
  cached frame st = st.
Proof.
  intros Hf Hw Hh. apply FrameFormat_eqb_eq in Hf.
  apply Z.eqb_eq in Hw. apply Z.eqb_eq in Hh.
  destruct st; unfold cached, set_codec_state; cbn in *. congruence.
Qed.

(** [updateCodecState] always completes, leaves the frame's format and size in
    the cache, and calls nothing but the bitrate controller and the payload
    registration. *)
Lemma updateCodecState_run frame st :
  exists calls,
    updateCodecState env frame st = Done tt (cached frame st) calls
    /\ (sendCodec (format frame) = None -> calls = [])
    /\ forall c, In c calls -> is_send c = false /\ is_feedback c = false.
Proof.
  unfold updateCodecState, bind, gets, modify. cbv beta iota zeta.
  destruct (FrameFormat_eqb (format frame) (m_frameFormat st)) eqn:Hf;
    destruct (width (additionalInfo_video frame) =? m_frameWidth st) eqn:Hw;
    destruct (height (additionalInfo_video frame) =? m_frameHeight st) eqn:Hh;
    cbn [negb orb].
  1: { exists []. rewrite cached_unchanged by assumption.
       split; [reflexivity|]. split; [reflexivity|]. intros c []. }
  all: fold (cached frame st);
    destruct (setSendCodec_own_format
                (m_frameWidth (cached frame st)) (m_frameHeight (cached frame st))
                (cached frame st)) as (b & calls & Hrun & Hnone & Hcalls);
    rewrite Hrun; exists calls; unfold ret; cbn [app];
    rewrite app_nil_r; split; [reflexivity|]; split; [exact Hnone | exact Hcalls].
Qed.

Lemma set_m_keyFrameArrived_same st :
  m_keyFrameArrived st = true -> set_m_keyFrameArrived true st = st.
Proof. intros H. destruct st; unfold set_m_keyFrameArrived; cbn in *. congruence. Qed.

(** Past the key-frame gate [onFrame] is the cache update followed by the
    dispatch, with the gate latched. *)
Lemma onFrame_gate_open frame st :
  m_enabled st = true ->
  m_keyFrameArrived st = true \/ isKeyFrame (additionalInfo_video frame) = true ->
  onFrame env frame st
  = (updateCodecState env frame ;; dispatchFrame env frame)
      (set_m_keyFrameArrived true st).
Proof.
  intros He Hg. unfold onFrame. unfold bind at 1. unfold gets at 1. rewrite He.
  cbn [negb]. unfold bind at 1. unfold gets at 1.
  destruct (m_keyFrameArrived st) eqn:Hk; cbn [negb].
  - rewrite set_m_keyFrameArrived_same by assumption.
    destruct (bind _ _ st); [rewrite app_nil_l|]; reflexivity.
  - destruct Hg as [Hg|Hg]; [discriminate|]. rewrite Hg. cbn [negb].
    unfold bind at 1. unfold modify.
    destruct (bind _ _ (set_m_keyFrameArrived true st));
      [rewrite !app_nil_l|]; reflexivity.
Qed.

Lemma sendOutgoingData_run pt frame frag h st rtp :
  m_rtpRtcp st = Some rtp ->
  sendOutgoingData pt frame frag h st
  = Done tt st [SendOutgoingData kVideoFrameKey pt (timeStamp frame)
                  (timeStamp frame / 90) (payload frame) (length frame) frag h].
Proof.
  intros Hrtp. unfold sendOutgoingData, deref_rtpRtcp, bind, gets, call.
  cbv beta iota. rewrite Hrtp. reflexivity.
Qed.

Lemma filter_none {A} (p : A -> bool) (l : list A) :
  (forall x, In x l -> p x = false) -> filter p l = [].
Proof.
  induction l as [|a l IH]; intros H; [reflexivity|].
  cbn. rewrite (H a (or_introl eq_refl)). apply IH. intros x Hx. apply H. now right.
Qed.

(** *** The scan loop *)

Lemma in_int_true z : in_int z = true <-> - 2 ^ 31 <= z < 2 ^ 31.
Proof.
  unfold in_int. rewrite andb_true_iff, Z.leb_le, Z.ltb_lt. reflexivity.
Qed.

Lemma in_ptrdiff_true z : in_ptrdiff z = true <-> - 2 ^ 63 <= z < 2 ^ 63.
Proof.
  unfold in_ptrdiff. rewrite andb_true_iff, Z.leb_le, Z.ltb_lt. reflexivity.
Qed.

Lemma to_int32_small z : - 2 ^ 31 <= z < 2 ^ 31 -> to_int32 z = z.
Proof.
  intros Hz. unfold to_int32, to_uint32. cbv zeta.
  change (2 ^ 32) with (2 * 2 ^ 31) in *.
  destruct (Z.ltb_spec (z mod (2 * 2 ^ 31)) (2 ^ 31)) as [Hlt|Hge].
  - destruct (Z.neg_nonneg_cases z) as [Hn|Hn].
    + assert (Hm : z mod (2 * 2 ^ 31) = z + 2 * 2 ^ 31).
      { symmetry. apply (Z.mod_unique_pos _ _ (-1)); lia. }
      lia.
    + apply Z.mod_small. lia.
  - destruct (Z.neg_nonneg_cases z) as [Hn|Hn].
    + assert (Hm : z mod (2 * 2 ^ 31) = z + 2 * 2 ^ 31).
      { symmetry. apply (Z.mod_unique_pos _ _ (-1)); lia. }
      lia.
    + rewrite Z.mod_small in Hge by lia. lia.
Qed.

Lemma to_size_t_small z : 0 <= z < 2 ^ 64 -> to_size_t z = z.
Proof. intros Hz. unfold to_size_t. apply Z.mod_small. exact Hz. Qed.

Lemma fragmentationVectorSize_app frag_info entries :
  fragmentationVectorSize (frag_info ++ entries)
  = fragmentationVectorSize frag_info + fragmentationVectorSize entries.
Proof.
  unfold fragmentationVectorSize. rewrite length_app. lia.
Qed.

(** A scan over a buffer length that is not positive leaves the header as
    it is. *)
Lemma scanNALUs_nothing fuel payload offset buffer_length frag_info :
  buffer_length <= 0 ->
  scanNALUs env fuel payload offset buffer_length frag_info
  = Scanned frag_info BufferConsumed.
Proof.
  intros Hlen. destruct fuel; cbn [scanNALUs];
    destruct (Z.gtb_spec buffer_length 0); try reflexivity; lia.
Qed.

Lemma in_ptrdiff_both a b :
  in_ptrdiff a && in_ptrdiff b = true
  <-> (- 2 ^ 63 <= a < 2 ^ 63 /\ - 2 ^ 63 <= b < 2 ^ 63).
Proof. rewrite andb_true_iff, !in_ptrdiff_true. reflexivity. Qed.

(** One round of the loop: the four ways it can go. *)
Lemma scanNALUs_round fuel payload offset buffer_length frag_info found start e :
  0 < buffer_length ->
  findNALU env payload offset buffer_length = (found, start, e) ->
  let r := to_int32 found in
  let s := to_int32 start in
  let scan := scanNALUs env (S fuel) payload offset buffer_length frag_info in
  (r < 0 /\ scan = Scanned frag_info ScanError)
  \/ (0 <= r /\ 65535 <= fragmentationVectorSize frag_info
      /\ scan = ScanFault (header_full_fault env))
  \/ (0 <= r /\ scan = ScanFault IntegerOverflow
      /\ (~ (- 2 ^ 63 <= offset < 2 ^ 63 /\ - 2 ^ 63 <= s + offset < 2 ^ 63)
          \/ (fragmentationVectorSize frag_info < 65535
              /\ ~ (- 2 ^ 31 <= s + r < 2 ^ 31
                    /\ - 2 ^ 31 <= buffer_length - (s + r) < 2 ^ 31))))
  \/ (0 <= r /\ fragmentationVectorSize frag_info < 65535
      /\ (- 2 ^ 63 <= offset < 2 ^ 63 /\ - 2 ^ 63 <= s + offset < 2 ^ 63)
      /\ - 2 ^ 31 <= s + r < 2 ^ 31
      /\ - 2 ^ 31 <= buffer_length - (s + r) < 2 ^ 31
      /\ scan = scanNALUs env fuel payload (offset + (s + r))
                  (buffer_length - (s + r))
                  (frag_info ++ [(to_size_t (s + offset), r)])).
Proof.
  intros Hlen Hf r s scan. subst scan. cbn [scanNALUs].
  destruct (Z.gtb_spec buffer_length 0) as [_|Hn]; [|lia].
  rewrite Hf. cbv zeta. fold r s.
  destruct (Z.ltb_spec r 0) as [Hr|Hr]; [left; split; [exact Hr|reflexivity]|].
  right. unfold header_full_fault.
  pose proof (in_ptrdiff_both offset (s + offset)) as Hptr.
  destruct (Z.leb_spec (fragmentationVectorSize frag_info + 1) 65535) as [Hroom|Hfull];
    cbn [negb andb].
  - right.
    destruct (in_ptrdiff offset && in_ptrdiff (s + offset)) eqn:Hp; cbn [negb];
      [apply in_ptrdiff_both in Hp
      |left; split; [exact Hr|]; split; [reflexivity|]; left;
       intros Hp'; apply Hptr in Hp'; congruence].
    destruct (in_int (s + r)) eqn:Hi; cbn [negb];
      [apply in_int_true in Hi
      |left; split; [exact Hr|]; split; [reflexivity|]; right; split; [lia|];
       intros (Hi' & _); apply in_int_true in Hi'; congruence].
    destruct (in_int (buffer_length - (s + r))) eqn:Hj; cbn [negb];
      [apply in_int_true in Hj
      |left; split; [exact Hr|]; split; [reflexivity|]; right; split; [lia|];
       intros (_ & Hj'); apply in_int_true in Hj'; congruence].
    right. repeat split; try lia.
  - destruct (NDEBUG env); cbn [negb].
    + destruct (in_ptrdiff offset && in_ptrdiff (s + offset)) eqn:Hp; cbn [negb].
      * left. split; [exact Hr|]. split; [lia|reflexivity].
      * right. left. split; [exact Hr|]. split; [reflexivity|]. left.
        intros Hp'. apply Hptr in Hp'. congruence.
    + left. split; [exact Hr|]. split; [lia|reflexivity].
Qed.

(** The scan hands back a header that [fragmentationVectorSize] can count;
    it never runs out of rounds when the rounds given and the entries held
    make 65536; and the faults that can stop it are the full header and the
    signed overflow. *)
Lemma scanNALUs_outcome fuel :
  forall payload offset buffer_length frag_info,
    fragmentationVectorSize frag_info <= 65535 ->
    65536 <= fragmentationVectorSize frag_info + Z.of_nat fuel ->
    match scanNALUs env fuel payload offset buffer_length frag_info with
    | Scanned result _ =>
        fragmentationVectorSize result <= 65535
        /\ exists entries, result = frag_info ++ entries
    | ScanFault f => f = header_full_fault env \/ f = IntegerOverflow
    end.
Proof.
  induction fuel as [|fuel IH]; intros payload offset len frag Hfits Hfuel.
  - lia.
  - destruct (Z.le_gt_cases len 0) as [Hlen|Hlen].
    + rewrite scanNALUs_nothing by exact Hlen.
      split; [exact Hfits|]. exists []. rewrite app_nil_r. reflexivity.
    + destruct (findNALU env payload offset len) as [[found start] e] eqn:Hf.
      destruct (scanNALUs_round fuel payload offset len frag found start e
                  ltac:(lia) Hf)
        as [(_ & ->)|[(_ & _ & ->)|[(_ & -> & _)|(_ & Hroom & _ & _ & _ & ->)]]].
      * split; [exact Hfits|]. exists []. rewrite app_nil_r. reflexivity.
      * left. reflexivity.
      * right. reflexivity.
      * specialize (IH payload (offset + (to_int32 start + to_int32 found))
                      (len - (to_int32 start + to_int32 found))
                      (frag ++ [(to_size_t (to_int32 start + offset), to_int32 found)])).
        rewrite fragmentationVectorSize_app in IH.
        change (fragmentationVectorSize [_]) with 1 in IH.
        specialize (IH ltac:(lia) ltac:(lia)).
        destruct (scanNALUs env fuel _ _ _ _) as [result how|f]; [|exact IH].
        destruct IH as (Hres & entries & ->). split; [exact Hres|].
        eexists. rewrite <- app_assoc. reflexivity.
Qed.

Lemma scan_rounds_eq : Z.of_nat scan_rounds = 65536.
Proof. unfold scan_rounds. rewrite positive_nat_Z. reflexivity. Qed.

(** *** Claims *)

(** C1. While the packetizer is enabled and no key frame has arrived, a frame
    that is not a key frame is dropped: [onFrame] makes one call, the
    key-frame request, and therefore no [SendOutgoingData]; the members are
    left as they were. *)
Theorem onFrame_before_first_key_frame frame st :
  m_enabled st = true ->
  m_keyFrameArrived st = false ->
  isKeyFrame (additionalInfo_video frame) = false ->
  onFrame env frame st = Done tt st [keyFrameRequest]
  /\ filter is_send [keyFrameRequest] = []
  /\ filter is_feedback [keyFrameRequest] = [keyFrameRequest].
Proof.
  intros He Hk Hf. split; [|split; reflexivity].
  unfold onFrame, bind, gets. cbv beta iota.
  rewrite He. cbn [negb]. cbv beta iota.
  rewrite Hk. cbn [negb]. rewrite Hf. reflexivity.
Qed.

(** C2, amended.  A failed NAL scan ends the scan loop and nothing else: an
    H.264 or H.265 frame that is past the gate, and whose scan ran into the
    error of [findNALU] (so before a 65536th unit and without a signed
    overflow), is still handed to [SendOutgoingData], once, with its whole
    payload and the fragmentation entries collected before the error, 65535
    at most. *)
Theorem onFrame_scan_error_still_sends frame st rtp frag :
  m_enabled st = true ->
  m_keyFrameArrived st = true \/ isKeyFrame (additionalInfo_video frame) = true ->
  format frame = FRAME_FORMAT_H264 \/ format frame = FRAME_FORMAT_H265 ->
  m_rtpRtcp st = Some rtp ->
  scanNALUs env scan_rounds (payload frame) 0 (to_int32 (length frame)) []
  = Scanned frag ScanError ->
  fragmentationVectorSize frag <= 65535
  /\ exists st' calls,
       onFrame env frame st = Done tt st' calls
       /\ filter is_send calls
          = [SendOutgoingData kVideoFrameKey (nal_payload_type (format frame))
               (timeStamp frame) (timeStamp frame / 90) (payload frame) (length frame)
               (Some frag) (nal_header (format frame))].
Proof.
  intros He Hg Hfmt Hrtp Hscan.
  split.
  { pose proof (scanNALUs_outcome scan_rounds (payload frame) 0
                  (to_int32 (length frame)) []) as Hout.
    rewrite Hscan, scan_rounds_eq in Hout.
    apply Hout; cbn; lia. }
  rewrite onFrame_gate_open by assumption.
  unfold bind at 1.
  destruct (updateCodecState_run frame (set_m_keyFrameArrived true st))
    as (pre & Hrun & _ & Hpre).
  rewrite Hrun.
  assert (Hd : dispatchFrame env frame (cached frame (set_m_keyFrameArrived true st))
               = Done tt (cached frame (set_m_keyFrameArrived true st))
                   [SendOutgoingData kVideoFrameKey (nal_payload_type (format frame))
                      (timeStamp frame) (timeStamp frame / 90) (payload frame)
                      (length frame) (Some frag) (nal_header (format frame))]).
  { unfold dispatchFrame.
    destruct Hfmt as [Hf|Hf]; rewrite Hf; cbv zeta; rewrite Hscan;
      apply sendOutgoingData_run with (rtp := rtp); exact Hrtp. }
  rewrite Hd. eexists. eexists. split; [reflexivity|].
  rewrite filter_app, (filter_none _ pre) by (intros c Hc; apply Hpre; exact Hc).
  reflexivity.
Qed.

Lemma assertion_holds f st :
  f = m_frameFormat st \/ NDEBUG env = true ->
  FrameFormat_eqb f (m_frameFormat st) || NDEBUG env = true.
Proof.
  intros [->|H]; [rewrite FrameFormat_eqb_refl; reflexivity|].
  rewrite H. apply orb_true_r.
Qed.

(** C4, amended.  [setSendCodec] checks the requested format against the
    cached one with [assert] only.  On a mismatch a build with assertions
    aborts in the assertion; a build without them goes on as for any format:
    [false] and no call for I420 and the formats of the [default] label, the
    bitrate bounds pushed and the payload registered for a supported format.
    The members are never written. *)
Theorem setSendCodec_format_mismatch f w h st :
  f <> m_frameFormat st ->
  (NDEBUG env = false -> setSendCodec env f w h st = Crash AssertionFailed)
  /\ (NDEBUG env = true -> sendCodec f = None ->
      setSendCodec env f w h st = Done false st [])
  /\ (NDEBUG env = true -> forall codec, sendCodec f = Some codec ->
      exists target,
        targetKbps env f w h = Some target
        /\ setSendCodec env f w h st
           = Done
               (match m_rtpRtcp st with
                | Some _ => negb (RegisterSendPayload_result env codec =? -1)
                | None => false
                end)
               st
               (SetStartBitrate (to_uint32 (target * 1000))
                :: SetMinMaxBitrate (to_uint32 (target / 4 * 1000))
                                    (to_uint32 (2 * target * 1000))
                :: match m_rtpRtcp st with
                   | Some _ => [RegisterSendPayload codec]
                   | None => []
                   end)).
Proof.
  intros Hne. rewrite setSendCodec_run, (FrameFormat_eqb_neq _ _ Hne). cbn [orb].
  repeat split.
  - intros ->. reflexivity.
  - intros -> ->. reflexivity.
  - intros -> codec ->. eexists. split; [apply targetKbps_eq|reflexivity].
Qed.

(** C5, amended.  For a supported format the bounds are computed in whole
    kbps: the target is the estimate of [calcBitrate], unchanged for every
    format but VP8 and times nine tenths, rounded down, for VP8; the minimum
    is a quarter of the target, rounded down.  They go to the bitrate
    controller in bps, computed in 32-bit arithmetic: the start bitrate is
    the target, the maximum twice the start bitrate modulo [2^32].  When
    the maximum fits 32 bits nothing wraps: the maximum is twice the start
    bitrate, and the minimum is a quarter of the start bitrate or less than
    1000 bps below it, the quarter itself when the target is a multiple of
    four. *)
Theorem setSendCodec_bitrate_bounds f w h st codec :
  sendCodec f = Some codec ->
  f = m_frameFormat st \/ NDEBUG env = true ->
  let estimate := to_uint32 (calcBitrate env w h) in
  let target :=
    if FrameFormat_eqb f FRAME_FORMAT_VP8 then 9 * estimate / 10 else estimate in
  let minimum := target / 4 in
  let maximum := 2 * target in
  let start_bps := to_uint32 (target * 1000) in
  let min_bps := to_uint32 (minimum * 1000) in
  let max_bps := to_uint32 (maximum * 1000) in
  targetKbps env f w h = Some target
  /\ (exists b rest,
        setSendCodec env f w h st
        = Done b st
            (SetStartBitrate start_bps :: SetMinMaxBitrate min_bps max_bps :: rest))
  /\ (if FrameFormat_eqb f FRAME_FORMAT_VP8
      then 10 * target <= 9 * estimate < 10 * target + 10
      else target = estimate)
  /\ 4 * minimum <= target < 4 * minimum + 4
  /\ max_bps = to_uint32 (2 * start_bps)
  /\ (maximum * 1000 < 2 ^ 32 ->
      start_bps = target * 1000
      /\ min_bps = minimum * 1000
      /\ max_bps = 2 * start_bps
      /\ 4 * min_bps <= start_bps < 4 * min_bps + 4000
      /\ (target mod 4 = 0 -> 4 * min_bps = start_bps)).
Proof.
  intros Hc Ha estimate target minimum maximum start_bps min_bps max_bps.
  assert (Ht : 0 <= target).
  { pose proof (to_uint32_range (calcBitrate env w h)) as Hr. fold estimate in Hr.
    subst target. destruct (FrameFormat_eqb f FRAME_FORMAT_VP8); [|lia].
    apply Z.div_pos; lia. }
  assert (Hm : 4 * minimum <= target < 4 * minimum + 4).
  { subst minimum. pose proof (Z.div_mod target 4 ltac:(lia)) as Hd.
    pose proof (Z.mod_pos_bound target 4 ltac:(lia)). lia. }
  split; [apply targetKbps_eq|]. split; [|split; [|split; [exact Hm|split]]].
  - rewrite setSendCodec_run, (assertion_holds _ _ Ha), Hc.
    eexists. eexists. reflexivity.
  - subst target. destruct (FrameFormat_eqb f FRAME_FORMAT_VP8); [|reflexivity].
    pose proof (Z.div_mod (9 * estimate) 10 ltac:(lia)) as Hd.
    pose proof (Z.mod_pos_bound (9 * estimate) 10 ltac:(lia)). lia.
  - subst max_bps start_bps maximum. unfold to_uint32.
    rewrite Z.mul_mod_idemp_r by discriminate. f_equal. lia.
  - intros Hmax. subst start_bps min_bps max_bps maximum.
    rewrite !to_uint32_small by lia.
    repeat split; try lia.
    intros Hmod. pose proof (Z.div_mod target 4 ltac:(lia)) as Hd.
    fold minimum in Hd. lia.
Qed.


Lemma unbindTransport_unbound st :
  videoSink_ st = None -> unbindTransport env st = Done tt st [].
Proof.
  intros H. unfold unbindTransport, bind, gets. cbv beta iota. rewrite H. reflexivity.
Qed.

Lemma unbindTransport_run st :
  exists calls,
    unbindTransport env st = Done tt (set_videoSink_ None st) calls.
Proof.
  unfold unbindTransport, bind, gets, modify. cbv beta iota.
  destruct (videoSink_ st) as [s|] eqn:Hs.
  - destruct (getFeedbackSource env s); unfold call, ret; eexists; reflexivity.
  - exists []. unfold ret. f_equal.
    destruct st; unfold set_videoSink_; cbn in *. congruence.
Qed.

Lemma bindTransport_run s st rtp :
  m_rtpRtcp st = Some rtp ->
  bindTransport env (Some s) st
  = Done tt (set_videoSink_ (Some s) st)
      (setVideoSinkSSRC s (SSRC rtp)
       :: match getFeedbackSource env s with
          | Some fbSource => [setFeedbackSink fbSource (Some FeedbackSink_this)]
          | None => []
          end).
Proof.
  intros Hrtp.
  unfold bindTransport, deref_rtpRtcp, bind, gets, modify, call. cbv beta iota.
  cbn [videoSink_ m_rtpRtcp set_videoSink_]. rewrite Hrtp.
  unfold ret. destruct (getFeedbackSource env s); reflexivity.
Qed.

(** C7.  [unbindTransport] with no sink bound does nothing; a second unbind
    after a first one does nothing, so two unbinds are one; binding a sink
    after the unbind sets the sink's SSRC once and, when the sink has a
    feedback source, wires its feedback sink once. *)
Theorem unbind_idempotent_rebind_once st rtp s :
  m_rtpRtcp st = Some rtp ->
  (videoSink_ st = None -> unbindTransport env st = Done tt st [])
  /\ exists st1 calls1,
       unbindTransport env st = Done tt st1 calls1
       /\ videoSink_ st1 = None
       /\ unbindTransport env st1 = Done tt st1 []
       /\ (unbindTransport env ;; unbindTransport env) st = unbindTransport env st
       /\ bindTransport env (Some s) st1
          = Done tt (set_videoSink_ (Some s) st1)
              (setVideoSinkSSRC s (SSRC rtp)
               :: match getFeedbackSource env s with
                  | Some fbSource =>
                      [setFeedbackSink fbSource (Some FeedbackSink_this)]
                  | None => []
                  end).
Proof.
  intros Hrtp. split; [apply unbindTransport_unbound|].
  destruct (unbindTransport_run st) as (calls1 & Hrun).
  exists (set_videoSink_ None st), calls1.
  assert (Hagain : unbindTransport env (set_videoSink_ None st)
                   = Done tt (set_videoSink_ None st) [])
    by (apply unbindTransport_unbound; reflexivity).
  split; [exact Hrun|]. split; [reflexivity|]. split; [exact Hagain|]. split.
  - unfold bind. rewrite Hrun, Hagain, app_nil_r. reflexivity.
  - apply bindTransport_run. exact Hrtp.
Qed.

(** C8.  A frame that is past the gate and whose format is none of VP8, VP9,
    H264 and H265 is dropped without a call: nothing is sent and no feedback
    is given.  The cache takes the frame's format and size all the same, and
    the gate is latched. *)
Theorem onFrame_other_format_dropped frame st :
  m_enabled st = true ->
  m_keyFrameArrived st = true \/ isKeyFrame (additionalInfo_video frame) = true ->
  format frame <> FRAME_FORMAT_VP8 -> format frame <> FRAME_FORMAT_VP9 ->
  format frame <> FRAME_FORMAT_H264 -> format frame <> FRAME_FORMAT_H265 ->
  exists st',
    onFrame env frame st = Done tt st' []
    /\ m_frameFormat st' = format frame
    /\ m_frameWidth st' = width (additionalInfo_video frame)
    /\ m_frameHeight st' = height (additionalInfo_video frame)
    /\ m_keyFrameArrived st' = true
    /\ m_enabled st' = m_enabled st
    /\ videoSink_ st' = videoSink_ st
    /\ m_rtpRtcp st' = m_rtpRtcp st.
Proof.
  intros He Hg H8 H9 H264 H265.
  exists (cached frame (set_m_keyFrameArrived true st)).
  split; [|repeat split].
  rewrite onFrame_gate_open by assumption.
  unfold bind at 1.
  destruct (updateCodecState_run frame (set_m_keyFrameArrived true st))
    as (pre & Hrun & Hnone & _).
  rewrite Hrun.
  assert (Hs : sendCodec (format frame) = None)
    by (destruct (format frame); try reflexivity; congruence).
  rewrite (Hnone Hs).
  unfold dispatchFrame.
  destruct (format frame); try congruence; reflexivity.
Qed.

(** C9.  The bitrate bounds are pushed before the registration is tried: a
    call for a supported format that the engine rejects returns [false] after
    [SetStartBitrate] and [SetMinMaxBitrate] were called with the new bounds. *)
Theorem setSendCodec_rejected_after_bitrate_update f w h st codec rtp :
  sendCodec f = Some codec ->
  f = m_frameFormat st \/ NDEBUG env = true ->
  m_rtpRtcp st = Some rtp ->
  RegisterSendPayload_result env codec = -1 ->
  exists target,
    targetKbps env f w h = Some target
    /\ setSendCodec env f w h st
       = Done false st
           [SetStartBitrate (to_uint32 (target * 1000));
            SetMinMaxBitrate (to_uint32 (target / 4 * 1000))
                             (to_uint32 (2 * target * 1000));
            RegisterSendPayload codec].
Proof.
  intros Hc Ha Hrtp Hrej.
  rewrite setSendCodec_run, (assertion_holds _ _ Ha), Hc, Hrtp, Hrej.
  eexists. split; [apply targetKbps_eq|reflexivity].
Qed.

(** C10.  [bindTransport] dereferences its argument unguarded: a null sink is
    a null dereference.  A sink that is not null is stored, gets the SSRC of
    the RTP module, and has its feedback source, if any, wired to the
    packetizer.  [unbindTransport] and [receiveRtpData] test the stored sink
    and do nothing when there is none. *)
Theorem bindTransport_requires_sink st rtp :
  m_rtpRtcp st = Some rtp ->
  bindTransport env None st = Crash NullDereference
  /\ (forall s,
        bindTransport env (Some s) st
        = Done tt (set_videoSink_ (Some s) st)
            (setVideoSinkSSRC s (SSRC rtp)
             :: match getFeedbackSource env s with
                | Some fbSource =>
                    [setFeedbackSink fbSource (Some FeedbackSink_this)]
                | None => []
                end))
  /\ (videoSink_ st = None ->
      unbindTransport env st = Done tt st []
      /\ forall buf len type channelId,
           receiveRtpData env buf len type channelId st = Done tt st []).
Proof.
  intros Hrtp. split; [reflexivity|]. split.
  - intros s. apply bindTransport_run. exact Hrtp.
  - intros Hs. split; [apply unbindTransport_unbound; exact Hs|].
    intros buf len type channelId.
    unfold receiveRtpData, bind, gets. cbv beta iota. rewrite Hs. reflexivity.
Qed.

End PacketizerFacts.

(** ** The key-frame gate over sequences of calls *)

Lemma keeps_gate_ret {A} (a : A) : keeps_gate (ret a).
Proof. intros st a' st' calls Hrun Hgate. injection Hrun as _ <- _. exact Hgate. Qed.

Lemma keeps_gate_gets {A} (f : VideoFramePacketizer -> A) : keeps_gate (gets f).
Proof. intros st a' st' calls Hrun Hgate. injection Hrun as _ <- _. exact Hgate. Qed.

Lemma keeps_gate_call c : keeps_gate (call c).
Proof. intros st a' st' calls Hrun Hgate. injection Hrun as _ <- _. exact Hgate. Qed.

Lemma keeps_gate_crash {A} f : keeps_gate (@crash A f).
Proof. intros st a' st' calls [=]. Qed.

Lemma keeps_gate_modify f :
  (forall st, m_keyFrameArrived st = true -> m_keyFrameArrived (f st) = true) ->
  keeps_gate (modify f).
Proof. intros Hf st a' st' calls Hrun Hgate. injection Hrun as _ <- _. apply Hf. exact Hgate. Qed.

Lemma keeps_gate_bind {A B} (m : M A) (k : A -> M B) :
  keeps_gate m -> (forall a, keeps_gate (k a)) -> keeps_gate (bind m k).
Proof.
  intros Hm Hk st b st' calls Hrun Hgate. unfold bind in Hrun.
  destruct (m st) as [a st1 c1|] eqn:E1; [|discriminate].
  destruct (k a st1) as [b' st2 c2|] eqn:E2; [|discriminate].
  injection Hrun as _ <- _.
  eapply Hk; [exact E2|]. eapply Hm; [exact E1|exact Hgate].
Qed.

Create HintDb gate.
#[local] Hint Resolve keeps_gate_ret keeps_gate_gets keeps_gate_call
  keeps_gate_crash : gate.

(** One step of a proof that a method body keeps the gate: a combinator of
    the monad or a case distinction of the body. *)
Ltac gate_step :=
  first
    [ solve [auto with gate]
    | apply keeps_gate_bind; [|intros ?]
    | apply keeps_gate_modify; intros ? ?; solve [assumption | reflexivity]
    | match goal with
      | |- keeps_gate (if ?b then _ else _) => destruct b
      | |- keeps_gate (match ?x with _ => _ end) => destruct x
      end ].

Ltac gate := cbv zeta; repeat gate_step.

Lemma setSendCodec_keeps_gate env f w h : keeps_gate (setSendCodec env f w h).
Proof. unfold setSendCodec, assert. gate. Qed.

Lemma updateCodecState_keeps_gate env frame : keeps_gate (updateCodecState env frame).
Proof.
  unfold updateCodecState. cbv zeta.
  repeat (apply keeps_gate_bind; [auto with gate | intros ?]).
  destruct (_ || _); [|auto with gate].
  repeat (apply keeps_gate_bind;
          [first [solve [auto with gate] | apply setSendCodec_keeps_gate
                 | apply keeps_gate_modify; intros ? ?; assumption]
          | intros ?]).
  auto with gate.
Qed.

Lemma dispatchFrame_keeps_gate env frame : keeps_gate (dispatchFrame env frame).
Proof. unfold dispatchFrame, sendOutgoingData, deref_rtpRtcp. gate. Qed.

Lemma onFrame_keeps_gate env frame : keeps_gate (onFrame env frame).
Proof.
  unfold onFrame, requestKeyFrame.
  apply keeps_gate_bind; [auto with gate | intros enabled].
  destruct (negb enabled); [auto with gate|].
  apply keeps_gate_bind; [auto with gate | intros arrived].
  destruct (negb arrived).
  - destruct (negb _); [auto with gate|].
    apply keeps_gate_bind; [apply keeps_gate_modify; intros; reflexivity | intros _].
    apply keeps_gate_bind; [apply updateCodecState_keeps_gate | intros _].
    apply dispatchFrame_keeps_gate.
  - apply keeps_gate_bind; [apply updateCodecState_keeps_gate | intros _].
    apply dispatchFrame_keeps_gate.
Qed.

Lemma run_op_keeps_gate env op : keeps_gate (run_op env op).
Proof.
  destruct op; cbn [run_op].
  - unfold bindTransport, deref_rtpRtcp. gate.
  - unfold unbindTransport. gate.
  - unfold enable, requestKeyFrame. gate.
  - apply keeps_gate_bind; [apply setSendCodec_keeps_gate | intros ?; auto with gate].
  - unfold OnReceivedIntraFrameRequest, requestKeyFrame. gate.
  - unfold deliverFeedback, deref_rtpRtcp. gate.
  - unfold receiveRtpData, assert. gate.
  - unfold OnNetworkChanged. gate.
  - apply onFrame_keeps_gate.
  - unfold sendFirPacket, requestKeyFrame. gate.
  - unfold init, deref_rtpRtcp. gate.
  - unfold close. gate.
Qed.

Lemma run_keeps_gate script : keeps_gate (run script).
Proof.
  induction script as [|[env op] rest IH]; cbn [run].
  - apply keeps_gate_ret.
  - apply keeps_gate_bind; [apply run_op_keeps_gate | intros _; exact IH].
Qed.

(** C3.  Once [m_keyFrameArrived] is true no sequence of calls on the
    instance makes it false again, whatever the frames and the answers of the
    collaborators; the first key frame that an enabled instance takes makes
    it true; a constructed instance starts with it false. *)
Theorem key_frame_gate_irreversible :
  (forall script st st' calls,
      m_keyFrameArrived st = true ->
      run script st = Done tt st' calls ->
      m_keyFrameArrived st' = true)
  /\ (forall env frame st st' calls,
        m_enabled st = true ->
        isKeyFrame (additionalInfo_video frame) = true ->
        onFrame env frame st = Done tt st' calls ->
        m_keyFrameArrived st' = true)
  /\ (forall env enableRed enableUlpfec st calls,
        construct env enableRed enableUlpfec = Done tt st calls ->
        m_keyFrameArrived st = false).
Proof.
  split; [|split].
  - intros script st st' calls Hgate Hrun.
    exact (run_keeps_gate script st tt st' calls Hrun Hgate).
  - intros env frame st st' calls He Hkey Hrun.
    rewrite onFrame_gate_open in Hrun by (try assumption; right; assumption).
    assert (Hk : keeps_gate (updateCodecState env frame ;; dispatchFrame env frame)).
    { apply keeps_gate_bind; [apply updateCodecState_keeps_gate | intros _].
      apply dispatchFrame_keeps_gate. }
    exact (Hk _ _ _ _ Hrun eq_refl).
  - intros env enableRed enableUlpfec st calls.
    unfold construct, init, deref_rtpRtcp, bind, call, modify, gets, ret.
    cbv beta iota. cbn [m_rtpRtcp set_m_rtpRtcp initial_members].
    destruct (CreateRtpRtcp env); [|discriminate].
    intros [= <- _]. reflexivity.
Qed.

(** ** The scan loop and its bound *)

(** X1.  The scan loop of [onFrame] ends whatever [findNALU] answers: every
    round that goes on takes one of the 65535 entries a fragmentation header
    can hold, so the 65536 rounds that [dispatchFrame] gives the loop are
    never used up.  The loop ends with the buffer consumed or with the error
    of [findNALU], and then the header holds 65535 entries at most; or it is
    stopped by the 65536th unit ([assert] aborts, or without assertions the
    arrays are written behind their end) or by a signed overflow.  A unit
    reported while the header holds 65535 entries is that fault. *)
Theorem scanNALUs_within_bound env payload offset buffer_length :
  let scan := scanNALUs env scan_rounds payload offset buffer_length [] in
  scan <> ScanFault OutOfFuel
  /\ match scan with
     | Scanned frag_info _ => fragmentationVectorSize frag_info <= 65535
     | ScanFault f => f = header_full_fault env \/ f = IntegerOverflow
     end
  /\ forall fuel frag_info found start e,
       0 < buffer_length ->
       findNALU env payload offset buffer_length = (found, start, e) ->
       0 <= to_int32 found ->
       fragmentationVectorSize frag_info = 65535 ->
       - 2 ^ 63 <= offset < 2 ^ 63 ->
       - 2 ^ 63 <= to_int32 start + offset < 2 ^ 63 ->
       scanNALUs env (S fuel) payload offset buffer_length frag_info
       = ScanFault (header_full_fault env).
Proof.
  intros scan.
  assert (Hout : match scan with
                 | Scanned frag_info _ => fragmentationVectorSize frag_info <= 65535
                 | ScanFault f => f = header_full_fault env \/ f = IntegerOverflow
                 end).
  { pose proof (scanNALUs_outcome env scan_rounds payload offset buffer_length [])
      as Hout.
    rewrite scan_rounds_eq in Hout. specialize (Hout ltac:(cbn; lia) ltac:(cbn; lia)).
    fold scan in Hout. destruct scan; [apply Hout|exact Hout]. }
  split; [|split; [exact Hout|]].
  - intros Hs. rewrite Hs in Hout. unfold header_full_fault in Hout.
    destruct Hout as [Hf|Hf]; [destruct (NDEBUG env)|]; discriminate.
  - intros fuel frag found start e Hlen Hf Hr Hfull Ho Hp.
    destruct (scanNALUs_round env fuel payload offset buffer_length frag found start e
                Hlen Hf)
      as [(Hneg & _)|[(_ & _ & ->)|[(_ & _ & [Hp'|(Hroom & _)])|(_ & Hroom & _)]]];
      try reflexivity; lia.
Qed.

(** ** Closed instances *)

Example construct_sample :
  construct (sample_env true) true false
  = Done tt fresh
      [TaskRunner_Start; SetStartBitrate 300000; SetMinMaxBitrate 0 0;
       SetGenericFECStatus false (Some RED_90000_PT) None; SetREMBStatus true;
       SetStorePacketsStatus true 600; RegisterModule].
Proof. reflexivity. Qed.

Example lit_0_9_bits :
  Double.lit_0_9 = S754_finite false 8106479329266893 (-53)
  /\ Double.to_uint32 (Double.mul (Double.of_Z 1201) Double.lit_0_9) = Some 1080.
Proof. split; vm_compute; reflexivity. Qed.

Lemma onFrame_before_first_key_frame_witness :
  (m_enabled fresh = true /\ m_keyFrameArrived fresh = false
   /\ isKeyFrame (additionalInfo_video
                    (sample_frame FRAME_FORMAT_H264 false sample_payload)) = false)
  /\ onFrame (sample_env true) (sample_frame FRAME_FORMAT_H264 false sample_payload)
       fresh
     = Done tt fresh [keyFrameRequest].
Proof.
  split; [repeat split|].
  apply (onFrame_before_first_key_frame (sample_env true)
           (sample_frame FRAME_FORMAT_H264 false sample_payload) fresh);
    reflexivity.
Defined.

(** C2 as stated fails: [findNALU] reports an error on the padding behind
    the first unit of the payload, and the frame goes to [SendOutgoingData]
    all the same, with the one entry found before the error. *)
Lemma scan_error_frame_is_sent :
  findNALU (sample_env true) sample_payload 6 3 = (-1, 0, 0)
  /\ scanNALUs (sample_env true) scan_rounds sample_payload 0 9 []
     = Scanned [(4, 2)] ScanError
  /\ onFrame (sample_env true) (sample_frame FRAME_FORMAT_H264 true sample_payload)
       fresh
     = Done tt
         (set_codec_state FRAME_FORMAT_H264 640 480 (set_m_keyFrameArrived true fresh))
         [SetStartBitrate 1200000; SetMinMaxBitrate 300000 2400000;
          RegisterSendPayload
            {| codecType := kVideoCodecH264; plName := "H264";
               plType := H264_90000_PT |};
          SendOutgoingData kVideoFrameKey H264_90000_PT 90000 1000 sample_payload 9
            (Some [(4, 2)])
            {| codec := kRtpVideoH264; codecHeader_initialised := false |}].
Proof. repeat split; vm_compute; reflexivity. Qed.

Lemma onFrame_scan_error_still_sends_witness :
  (m_enabled fresh = true
   /\ isKeyFrame (additionalInfo_video
                    (sample_frame FRAME_FORMAT_H264 true sample_payload)) = true
   /\ m_rtpRtcp fresh = Some sample_rtp
   /\ scanNALUs (sample_env true) scan_rounds sample_payload 0 9 []
      = Scanned [(4, 2)] ScanError)
  /\ fragmentationVectorSize [(4, 2)] <= 65535
  /\ exists st' calls,
       onFrame (sample_env true) (sample_frame FRAME_FORMAT_H264 true sample_payload)
         fresh = Done tt st' calls
       /\ filter is_send calls
          = [SendOutgoingData kVideoFrameKey H264_90000_PT 90000 1000 sample_payload 9
               (Some [(4, 2)])
               {| codec := kRtpVideoH264; codecHeader_initialised := false |}].
Proof.
  split; [repeat split|].
  apply (onFrame_scan_error_still_sends (sample_env true)
           (sample_frame FRAME_FORMAT_H264 true sample_payload) fresh sample_rtp
           [(4, 2)]);
    [ reflexivity | right; reflexivity | left; reflexivity | reflexivity
    | vm_compute; reflexivity ].
Defined.

Lemma key_frame_gate_witness :
  m_keyFrameArrived streaming_vp8 = true
  /\ exists st' calls,
       run sample_script streaming_vp8 = Done tt st' calls
       /\ m_keyFrameArrived st' = true.
Proof.
  split; [reflexivity|].
  destruct (run sample_script streaming_vp8) as [[] st' calls|f] eqn:Hrun;
    [|vm_compute in Hrun; discriminate].
  exists st', calls. split; [reflexivity|].
  exact (proj1 key_frame_gate_irreversible sample_script streaming_vp8 st' calls
           eq_refl Hrun).
Defined.

(** C4 as stated fails: on a fresh instance, whose cached format is unknown,
    a call for VP8 aborts in the assertion when assertions are compiled in,
    and returns [true] with the bounds pushed and the payload registered when
    they are not. *)
Lemma setSendCodec_mismatch_not_rejected :
  FRAME_FORMAT_VP8 <> m_frameFormat fresh
  /\ setSendCodec (sample_env false) FRAME_FORMAT_VP8 640 480 fresh
     = Crash AssertionFailed
  /\ setSendCodec (sample_env true) FRAME_FORMAT_VP8 640 480 fresh
     = Done true fresh
         [SetStartBitrate 1080000; SetMinMaxBitrate 270000 2160000;
          RegisterSendPayload
            {| codecType := kVideoCodecVP8; plName := "VP8"; plType := VP8_90000_PT |}].
Proof. split; [discriminate|]. split; vm_compute; reflexivity. Qed.

Lemma setSendCodec_format_mismatch_witness :
  FRAME_FORMAT_VP8 <> m_frameFormat fresh
  /\ setSendCodec (sample_env false) FRAME_FORMAT_VP8 640 480 fresh
     = Crash AssertionFailed.
Proof.
  assert (Hne : FRAME_FORMAT_VP8 <> m_frameFormat fresh) by discriminate.
  split; [exact Hne|].
  apply (setSendCodec_format_mismatch (sample_env false) FRAME_FORMAT_VP8 640 480
           fresh Hne).
  reflexivity.
Defined.

(** C5 as stated fails.  At 176x144 the estimate is 99 kbps: for VP8 the
    target is 89 kbps, not 89.1, and the minimum 22 kbps, not 22.25, so the
    minimum pushed is 22000 bps where a quarter of the start bitrate is
    22250.  At an estimate of 3333334 kbps the target is 3000000 kbps and
    twice the start bitrate does not fit 32 bits: the maximum pushed is
    1705032704 bps, less than the start bitrate. *)
Lemma setSendCodec_bounds_rounded_and_wrapped :
  to_uint32 (calcBitrate (sample_env false) 176 144) = 99
  /\ setSendCodec (sample_env false) FRAME_FORMAT_VP8 176 144 streaming_vp8
     = Done true streaming_vp8
         [SetStartBitrate 89000; SetMinMaxBitrate 22000 178000;
          RegisterSendPayload
            {| codecType := kVideoCodecVP8; plName := "VP8"; plType := VP8_90000_PT |}]
  /\ 10 * 89 <> 9 * 99
  /\ 22000 <> 89000 / 4
  /\ setSendCodec (estimate_env 3333334) FRAME_FORMAT_VP8 640 480 streaming_vp8
     = Done true streaming_vp8
         [SetStartBitrate 3000000000; SetMinMaxBitrate 750000000 1705032704;
          RegisterSendPayload
            {| codecType := kVideoCodecVP8; plName := "VP8"; plType := VP8_90000_PT |}]
  /\ 1705032704 <> 2 * 3000000000.
Proof. repeat split; try (vm_compute; reflexivity); vm_compute; discriminate. Qed.

Lemma setSendCodec_bitrate_bounds_witness :
  (sendCodec FRAME_FORMAT_VP8
   = Some {| codecType := kVideoCodecVP8; plName := "VP8"; plType := VP8_90000_PT |}
   /\ FRAME_FORMAT_VP8 = m_frameFormat streaming_vp8)
  /\ targetKbps (sample_env false) FRAME_FORMAT_VP8 640 480 = Some 1080
  /\ exists b rest,
       setSendCodec (sample_env false) FRAME_FORMAT_VP8 640 480 streaming_vp8
       = Done b streaming_vp8
           (SetStartBitrate 1080000 :: SetMinMaxBitrate 270000 2160000 :: rest).
Proof.
  split; [split; reflexivity|].
  destruct (setSendCodec_bitrate_bounds (sample_env false) FRAME_FORMAT_VP8
              640 480 streaming_vp8 _ eq_refl (or_introl eq_refl))
    as (Htarget & Hrun & _).
  split; [exact Htarget|exact Hrun].
Defined.


Lemma unbind_idempotent_rebind_once_witness :
  m_rtpRtcp bound_vp8 = Some sample_rtp
  /\ exists st1 calls1,
       unbindTransport (sample_env false) bound_vp8 = Done tt st1 calls1
       /\ bindTransport (sample_env false) (Some 4%nat) st1
          = Done tt (set_videoSink_ (Some 4%nat) st1)
              [setVideoSinkSSRC 4%nat 305419896;
               setFeedbackSink 5%nat (Some FeedbackSink_this)].
Proof.
  split; [reflexivity|].
  destruct (unbind_idempotent_rebind_once (sample_env false) bound_vp8 sample_rtp
              4%nat eq_refl) as (_ & st1 & calls1 & Hrun & _ & _ & _ & Hbind).
  exists st1, calls1. split; [exact Hrun | exact Hbind].
Defined.

Lemma onFrame_other_format_dropped_witness :
  (m_enabled fresh = true
   /\ isKeyFrame (additionalInfo_video
                    (sample_frame FRAME_FORMAT_I420 true sample_payload)) = true)
  /\ exists st',
       onFrame (sample_env false) (sample_frame FRAME_FORMAT_I420 true sample_payload)
         fresh = Done tt st' []
       /\ m_frameFormat st' = FRAME_FORMAT_I420.
Proof.
  split; [split; reflexivity|].
  destruct (onFrame_other_format_dropped (sample_env false)
              (sample_frame FRAME_FORMAT_I420 true sample_payload) fresh)
    as (st' & Hrun & Hfmt & _);
    [ reflexivity | right; reflexivity | discriminate | discriminate
    | discriminate | discriminate | ].
  exists st'. split; [exact Hrun | exact Hfmt].
Defined.

Lemma setSendCodec_rejected_after_bitrate_update_witness :
  (FRAME_FORMAT_VP8 = m_frameFormat streaming_vp8
   /\ m_rtpRtcp streaming_vp8 = Some sample_rtp
   /\ RegisterSendPayload_result (rejecting_env false)
        {| codecType := kVideoCodecVP8; plName := "VP8"; plType := VP8_90000_PT |}
      = -1)
  /\ exists target,
       targetKbps (rejecting_env false) FRAME_FORMAT_VP8 640 480 = Some target
       /\ setSendCodec (rejecting_env false) FRAME_FORMAT_VP8 640 480 streaming_vp8
          = Done false streaming_vp8
              [SetStartBitrate (to_uint32 (target * 1000));
               SetMinMaxBitrate (to_uint32 (target / 4 * 1000))
                                (to_uint32 (2 * target * 1000));
               RegisterSendPayload
                 {| codecType := kVideoCodecVP8; plName := "VP8";
                    plType := VP8_90000_PT |}].
Proof.
  split; [repeat split|].
  apply (setSendCodec_rejected_after_bitrate_update (rejecting_env false)
           FRAME_FORMAT_VP8 640 480 streaming_vp8 _ sample_rtp);
    [ reflexivity | left; reflexivity | reflexivity | reflexivity ].
Defined.

Lemma bindTransport_requires_sink_witness :
  m_rtpRtcp fresh = Some sample_rtp
  /\ bindTransport (sample_env false) None fresh = Crash NullDereference
  /\ bindTransport (sample_env false) (Some 3%nat) fresh
     = Done tt (set_videoSink_ (Some 3%nat) fresh) [setVideoSinkSSRC 3%nat 305419896].
Proof.
  split; [reflexivity|].
  destruct (bindTransport_requires_sink (sample_env false) fresh sample_rtp eq_refl)
    as (Hnull & Hbind & _).
  split; [exact Hnull | exact (Hbind 3%nat)].
Defined.

Lemma unit_length_nonneg bytes : 0 <= unit_length bytes.
Proof.
  induction bytes as [|b0 rest IH]; cbn [unit_length]; [lia|].
  destruct b0; try lia.
  destruct rest as [|b1 rest1]; try lia.
  destruct b1; try lia.
  destruct rest1 as [|b2 rest2]; try lia.
  destruct b2 as [|q|q]; try lia.
  destruct q; lia.
Qed.

Lemma scanNALUs_within_bound_witness :
  scanNALUs (sample_env true) scan_rounds two_unit_payload 0 11 []
  <> ScanFault OutOfFuel.
Proof.
  exact (proj1 (scanNALUs_within_bound (sample_env true) two_unit_payload 0 11)).
Defined.

(** A header that holds 65535 entries has no room for the unit found next. *)
Example scanNALUs_full_header :
  fragmentationVectorSize full_header = 65535
  /\ scanNALUs (sample_env false) 1 two_unit_payload 0 11 full_header
     = ScanFault AssertionFailed
  /\ scanNALUs (sample_env true) 1 two_unit_payload 0 11 full_header
     = ScanFault OutOfBoundsWrite.
Proof. repeat split; vm_compute; reflexivity. Qed.

(** The scenario of two NAL units: the key frame opens the gate and is sent
    once, with a fragmentation header of two entries. *)
Example onFrame_two_units :
  scanNALUs (sample_env true) scan_rounds two_unit_payload 0 11 []
  = Scanned [(4, 2); (9, 2)] BufferConsumed
  /\ filter is_send
       match onFrame (sample_env true)
               (sample_frame FRAME_FORMAT_H264 true two_unit_payload) fresh with
       | Done _ _ calls => calls
       | Crash _ => []
       end
     = [SendOutgoingData kVideoFrameKey H264_90000_PT 90000 1000 two_unit_payload 11
          (Some [(4, 2); (9, 2)])
          {| codec := kRtpVideoH264; codecHeader_initialised := false |}].
Proof. split; vm_compute; reflexivity. Qed.

(** * Further properties

    ** Nothing is sent while the gate is closed *)

Lemma never_sends_ret {A} (a : A) : never_sends (ret a).
Proof. intros st a' st' calls Hrun. injection Hrun as _ _ <-. reflexivity. Qed.

Lemma never_sends_gets {A} (f : VideoFramePacketizer -> A) : never_sends (gets f).
Proof. intros st a' st' calls Hrun. injection Hrun as _ _ <-. reflexivity. Qed.

Lemma never_sends_modify f : never_sends (modify f).
Proof. intros st a' st' calls Hrun. injection Hrun as _ _ <-. reflexivity. Qed.

Lemma never_sends_crash {A} f : never_sends (@crash A f).
Proof. intros st a' st' calls Hrun. discriminate. Qed.

Lemma never_sends_call c : is_send c = false -> never_sends (call c).
Proof.
  intros Hc st a' st' calls Hrun. injection Hrun as _ _ <-.
  cbn [filter]. rewrite Hc. reflexivity.
Qed.

Lemma never_sends_bind {A B} (m : M A) (k : A -> M B) :
  never_sends m -> (forall a, never_sends (k a)) -> never_sends (bind m k).
Proof.
  intros Hm Hk st b st' calls Hrun. unfold bind in Hrun.
  destruct (m st) as [a st1 c1|] eqn:E1; [|discriminate].
  destruct (k a st1) as [b' st2 c2|] eqn:E2; [|discriminate].
  injection Hrun as _ _ <-.
  rewrite filter_app, (Hm _ _ _ _ E1), (Hk _ _ _ _ _ E2). reflexivity.
Qed.

Create HintDb quiet.
#[local] Hint Resolve never_sends_ret never_sends_gets never_sends_modify
  never_sends_crash : quiet.

Ltac quiet_step :=
  first
    [ solve [auto with quiet]
    | apply never_sends_call; reflexivity
    | apply never_sends_bind; [|intros ?]
    | match goal with
      | |- never_sends (if ?b then _ else _) => destruct b
      | |- never_sends (match ?x with _ => _ end) => destruct x
      end ].

Ltac quiet := cbv zeta; repeat quiet_step.

Lemma setSendCodec_never_sends env f w h : never_sends (setSendCodec env f w h).
Proof. unfold setSendCodec, assert. quiet. Qed.

(** Every method but [onFrame] never sends. *)
Lemma run_op_never_sends env op :
  (forall frame, op <> OpOnFrame frame) -> never_sends (run_op env op).
Proof.
  intros Hop. destruct op; cbn [run_op].
  - unfold bindTransport, deref_rtpRtcp. quiet.
  - unfold unbindTransport. quiet.
  - unfold enable, requestKeyFrame. quiet.
  - apply never_sends_bind; [apply setSendCodec_never_sends | intros ?; auto with quiet].
  - unfold OnReceivedIntraFrameRequest, requestKeyFrame. quiet.
  - unfold deliverFeedback, deref_rtpRtcp. quiet.
  - unfold receiveRtpData, assert. quiet.
  - unfold OnNetworkChanged. quiet.
  - exfalso. exact (Hop frame eq_refl).
  - unfold sendFirPacket, requestKeyFrame. quiet.
  - unfold init, deref_rtpRtcp. quiet.
  - unfold close. quiet.
Qed.

Lemma onFrame_disabled_run env frame st :
  m_enabled st = false -> onFrame env frame st = Done tt st [].
Proof.
  intros He. unfold onFrame, bind, gets. cbv beta iota. rewrite He. reflexivity.
Qed.

Lemma onFrame_closed_run env frame st :
  m_enabled st = true -> m_keyFrameArrived st = false ->
  isKeyFrame (additionalInfo_video frame) = false ->
  onFrame env frame st = Done tt st [keyFrameRequest].
Proof.
  intros He Hk Hf. unfold onFrame, bind, gets. cbv beta iota.
  rewrite He. cbn [negb]. cbv beta iota.
  rewrite Hk. cbn [negb]. rewrite Hf. reflexivity.
Qed.

Lemma onFrame_open_latches env frame st st' calls :
  m_enabled st = true ->
  m_keyFrameArrived st = true \/ isKeyFrame (additionalInfo_video frame) = true ->
  onFrame env frame st = Done tt st' calls -> m_keyFrameArrived st' = true.
Proof.
  intros He Hg Hrun. rewrite onFrame_gate_open in Hrun by assumption.
  assert (Hk : keeps_gate (updateCodecState env frame ;; dispatchFrame env frame)).
  { apply keeps_gate_bind; [apply updateCodecState_keeps_gate | intros _].
    apply dispatchFrame_keeps_gate. }
  exact (Hk _ _ _ _ Hrun eq_refl).
Qed.

Lemma onFrame_quiet_while_closed env frame st st' calls :
  onFrame env frame st = Done tt st' calls ->
  m_keyFrameArrived st' = false -> filter is_send calls = [].
Proof.
  intros Hrun Hclosed.
  destruct (m_enabled st) eqn:He.
  - destruct (m_keyFrameArrived st) eqn:Hk.
    + rewrite (onFrame_open_latches env frame st st' calls He (or_introl Hk) Hrun)
        in Hclosed. discriminate.
    + destruct (isKeyFrame (additionalInfo_video frame)) eqn:Hf.
      * rewrite (onFrame_open_latches env frame st st' calls He (or_intror Hf) Hrun)
          in Hclosed. discriminate.
      * rewrite onFrame_closed_run in Hrun by assumption.
        injection Hrun as _ <-. reflexivity.
  - rewrite onFrame_disabled_run in Hrun by assumption.
    injection Hrun as _ <-. reflexivity.
Qed.

Lemma run_op_quiet_while_closed env op st st' calls :
  run_op env op st = Done tt st' calls ->
  m_keyFrameArrived st' = false -> filter is_send calls = [].
Proof.
  intros Hrun Hclosed.
  destruct op;
    first [ eapply onFrame_quiet_while_closed; eassumption
          | eapply run_op_never_sends; [|exact Hrun]; intros ? [=] ].
Qed.

(** X2.  As long as [m_keyFrameArrived] is still false at the end of a
    sequence of calls, none of the calls made [SendOutgoingData]: no frame
    reaches the RTP engine before the first key frame. *)
Theorem no_send_before_first_key_frame script : forall st st' calls,
  run script st = Done tt st' calls ->
  m_keyFrameArrived st' = false ->
  filter is_send calls = [].
Proof.
  induction script as [|[env op] rest IH]; intros st st' calls Hrun Hclosed.
  - injection Hrun as _ <-. reflexivity.
  - cbn [run] in Hrun. unfold bind in Hrun.
    destruct (run_op env op st) as [[] st1 c1|] eqn:E1; [|discriminate].
    destruct (run rest st1) as [[] st2 c2|] eqn:E2; [|discriminate].
    injection Hrun as <- <-.
    assert (Hmid : m_keyFrameArrived st1 = false).
    { destruct (m_keyFrameArrived st1) eqn:Hk; [|reflexivity].
      rewrite (run_keeps_gate rest st1 tt st2 c2 E2 Hk) in Hclosed. discriminate. }
    rewrite filter_app, (run_op_quiet_while_closed env op st st1 c1 E1 Hmid),
      (IH st1 st2 c2 E2 Hclosed).
    reflexivity.
Qed.

(** ** The engine handle *)

Lemma keeps_ret P {A} (a : A) : keeps P (ret a).
Proof. intros st a' st' calls Hrun HP. injection Hrun as _ <- _. exact HP. Qed.

Lemma keeps_gets P {A} (f : VideoFramePacketizer -> A) : keeps P (gets f).
Proof. intros st a' st' calls Hrun HP. injection Hrun as _ <- _. exact HP. Qed.

Lemma keeps_call P c : keeps P (call c).
Proof. intros st a' st' calls Hrun HP. injection Hrun as _ <- _. exact HP. Qed.

Lemma keeps_crash P {A} f : keeps P (@crash A f).
Proof. intros st a' st' calls Hrun. discriminate. Qed.

Lemma keeps_modify (P : VideoFramePacketizer -> Prop) f :
  (forall st, P st -> P (f st)) -> keeps P (modify f).
Proof. intros Hf st a' st' calls Hrun HP. injection Hrun as _ <- _. apply Hf, HP. Qed.

Lemma keeps_bind P {A B} (m : M A) (k : A -> M B) :
  keeps P m -> (forall a, keeps P (k a)) -> keeps P (bind m k).
Proof.
  intros Hm Hk st b st' calls Hrun HP. unfold bind in Hrun.
  destruct (m st) as [a st1 c1|] eqn:E1; [|discriminate].
  destruct (k a st1) as [b' st2 c2|] eqn:E2; [|discriminate].
  injection Hrun as _ <- _.
  eapply Hk; [exact E2|]. eapply Hm; [exact E1|exact HP].
Qed.

(** One step of a proof that a method body keeps a property that the
    member updates other than that of [m_rtpRtcp] respect. *)
Ltac keeps_step :=
  first
    [ apply keeps_ret | apply keeps_gets | apply keeps_call | apply keeps_crash
    | apply keeps_bind; [|intros ?]
    | apply keeps_modify; intros ? ?; assumption
    | match goal with
      | |- keeps _ (if ?b then _ else _) => destruct b
      | |- keeps _ (match ?x with _ => _ end) => destruct x
      end ].

Ltac keeps_all := cbv zeta; repeat keeps_step.

Lemma init_sets_engine env enableRed enableUlpfec st b st' calls :
  init env enableRed enableUlpfec st = Done b st' calls -> m_rtpRtcp st' <> None.
Proof.
  unfold init, deref_rtpRtcp, bind, call, modify, gets, ret. cbv beta iota.
  cbn [m_rtpRtcp set_m_rtpRtcp].
  destruct (CreateRtpRtcp env) as [rtp|]; [|discriminate].
  intros [= _ <- _]. discriminate.
Qed.

Lemma run_op_keeps_engine env op :
  keeps (fun st => m_rtpRtcp st <> None) (run_op env op).
Proof.
  destruct op; cbn [run_op].
  - unfold bindTransport, deref_rtpRtcp. keeps_all.
  - unfold unbindTransport. keeps_all.
  - unfold enable, requestKeyFrame. keeps_all.
  - unfold setSendCodec, assert. keeps_all.
  - unfold OnReceivedIntraFrameRequest, requestKeyFrame. keeps_all.
  - unfold deliverFeedback, deref_rtpRtcp. keeps_all.
  - unfold receiveRtpData, assert. keeps_all.
  - unfold OnNetworkChanged. keeps_all.
  - unfold onFrame, updateCodecState, dispatchFrame, sendOutgoingData,
      deref_rtpRtcp, requestKeyFrame, setSendCodec, assert. keeps_all.
  - unfold sendFirPacket, requestKeyFrame. keeps_all.
  - intros st a st' calls Hrun _. unfold bind in Hrun.
    destruct (init env enableRed enableUlpfec st) as [b st1 c1|] eqn:E; [|discriminate].
    cbn in Hrun. injection Hrun as _ <- _.
    exact (init_sets_engine _ _ _ _ _ _ _ E).
  - unfold close. keeps_all.
Qed.

(** X3.  The constructor leaves a non-null RTP/RTCP module when it returns,
    and no sequence of calls that returns ever leaves [m_rtpRtcp] null
    afterwards: the module that the unguarded [m_rtpRtcp->] of [onFrame],
    [bindTransport] and [deliverFeedback] go through is there for the whole
    life of a constructed instance. *)
Theorem engine_handle_stays :
  (forall env enableRed enableUlpfec st calls,
      construct env enableRed enableUlpfec = Done tt st calls ->
      m_rtpRtcp st <> None)
  /\ (forall script st st' calls,
        m_rtpRtcp st <> None ->
        run script st = Done tt st' calls ->
        m_rtpRtcp st' <> None).
Proof.
  split.
  - intros env enableRed enableUlpfec st calls. unfold construct, bind.
    unfold call at 1. cbv beta iota.
    destruct (init env enableRed enableUlpfec initial_members) as [b st1 c1|] eqn:E;
      [|discriminate].
    cbn. intros [= <- _]. exact (init_sets_engine _ _ _ _ _ _ _ E).
  - induction script as [|[env op] rest IH]; intros st st' calls HP Hrun.
    + injection Hrun as <- _. exact HP.
    + cbn [run] in Hrun. unfold bind in Hrun.
      destruct (run_op env op st) as [[] st1 c1|] eqn:E1; [|discriminate].
      destruct (run rest st1) as [[] st2 c2|] eqn:E2; [|discriminate].
      injection Hrun as <- _.
      apply (IH st1 st2 c2); [|exact E2].
      exact (run_op_keeps_engine env op st tt st1 c1 E1 HP).
Qed.

(** ** [onFrame] past the gate *)

Lemma updateCodecState_same env frame st :
  m_frameFormat st = format frame ->
  m_frameWidth st = width (additionalInfo_video frame) ->
  m_frameHeight st = height (additionalInfo_video frame) ->
  updateCodecState env frame st = Done tt st [].
Proof.
  intros Hf Hw Hh. unfold updateCodecState, bind, gets. cbv beta iota zeta.
  rewrite Hf, Hw, Hh, FrameFormat_eqb_refl, !Z.eqb_refl. reflexivity.
Qed.

Lemma updateCodecState_changed env frame st codec :
  m_frameFormat st <> format frame
  \/ m_frameWidth st <> width (additionalInfo_video frame)
  \/ m_frameHeight st <> height (additionalInfo_video frame) ->
  sendCodec (format frame) = Some codec ->
  updateCodecState env frame st
  = Done tt (cached frame st)
      (let target :=
         if FrameFormat_eqb (format frame) FRAME_FORMAT_VP8
         then 9 * to_uint32 (calcBitrate env (width (additionalInfo_video frame))
                               (height (additionalInfo_video frame))) / 10
         else to_uint32 (calcBitrate env (width (additionalInfo_video frame))
                           (height (additionalInfo_video frame))) in
       SetStartBitrate (to_uint32 (target * 1000))
       :: SetMinMaxBitrate (to_uint32 (target / 4 * 1000))
                           (to_uint32 (2 * target * 1000))
       :: match m_rtpRtcp st with
          | Some _ => [RegisterSendPayload codec]
          | None => []
          end).
Proof.
  intros Hdiff Hc. unfold updateCodecState, bind, gets, modify. cbv beta iota zeta.
  assert (Hcond : negb (FrameFormat_eqb (format frame) (m_frameFormat st))
                  || negb (width (additionalInfo_video frame) =? m_frameWidth st)
                  || negb (height (additionalInfo_video frame) =? m_frameHeight st)
                  = true).
  { destruct Hdiff as [H|[H|H]].
    - rewrite FrameFormat_eqb_neq by congruence. reflexivity.
    - replace (width (additionalInfo_video frame) =? m_frameWidth st) with false
        by (symmetry; apply Z.eqb_neq; congruence).
      cbn [negb]. rewrite orb_true_r. reflexivity.
    - replace (height (additionalInfo_video frame) =? m_frameHeight st) with false
        by (symmetry; apply Z.eqb_neq; congruence).
      cbn [negb]. apply orb_true_r. }
  rewrite Hcond. fold (cached frame st).
  rewrite setSendCodec_run.
  replace (m_frameFormat (cached frame st)) with (format frame) by reflexivity.
  rewrite FrameFormat_eqb_refl. cbn [orb]. rewrite Hc. cbv zeta.
  unfold ret. cbn [app]. rewrite app_nil_r. reflexivity.
Qed.

Lemma dispatchFrame_vpx_run env frame st rtp :
  format frame = FRAME_FORMAT_VP8 \/ format frame = FRAME_FORMAT_VP9 ->
  m_rtpRtcp st = Some rtp ->
  dispatchFrame env frame st
  = Done tt st [sendCall (vpx_payload_type (format frame)) frame None
                  (vpx_header (format frame))].
Proof.
  intros [Hf|Hf] Hrtp; unfold dispatchFrame; rewrite Hf;
    apply sendOutgoingData_run with (rtp := rtp); exact Hrtp.
Qed.

Lemma dispatchFrame_nal_run env frame st rtp frag how :
  format frame = FRAME_FORMAT_H264 \/ format frame = FRAME_FORMAT_H265 ->
  m_rtpRtcp st = Some rtp ->
  scanNALUs env scan_rounds (payload frame) 0 (to_int32 (length frame)) []
  = Scanned frag how ->
  dispatchFrame env frame st
  = Done tt st [sendCall (nal_payload_type (format frame)) frame (Some frag)
                  (nal_header (format frame))].
Proof.
  intros [Hf|Hf] Hrtp Hscan; unfold dispatchFrame; rewrite Hf; cbv zeta;
    rewrite Hscan; apply sendOutgoingData_run with (rtp := rtp); exact Hrtp.
Qed.

Lemma dispatchFrame_nal_fault env frame st f :
  format frame = FRAME_FORMAT_H264 \/ format frame = FRAME_FORMAT_H265 ->
  scanNALUs env scan_rounds (payload frame) 0 (to_int32 (length frame)) []
  = ScanFault f ->
  dispatchFrame env frame st = Crash f.
Proof.
  intros [Hf|Hf] Hscan; unfold dispatchFrame; rewrite Hf; cbv zeta;
    rewrite Hscan; reflexivity.
Qed.

(** [dispatchFrame] returns, the members untouched, unless the scan of an
    H.264 or H.265 frame is stopped by a fault. *)
Lemma dispatchFrame_outcome env frame st rtp :
  m_rtpRtcp st = Some rtp ->
  (exists calls, dispatchFrame env frame st = Done tt st calls)
  \/ ((format frame = FRAME_FORMAT_H264 \/ format frame = FRAME_FORMAT_H265)
      /\ exists f,
           (f = header_full_fault env \/ f = IntegerOverflow)
           /\ scanNALUs env scan_rounds (payload frame) 0 (to_int32 (length frame)) []
              = ScanFault f
           /\ dispatchFrame env frame st = Crash f).
Proof.
  intros Hrtp.
  assert (Hnal : format frame = FRAME_FORMAT_H264 \/ format frame = FRAME_FORMAT_H265 ->
                 (exists calls, dispatchFrame env frame st = Done tt st calls)
                 \/ ((format frame = FRAME_FORMAT_H264
                      \/ format frame = FRAME_FORMAT_H265)
                     /\ exists f,
                          (f = header_full_fault env \/ f = IntegerOverflow)
                          /\ scanNALUs env scan_rounds (payload frame) 0
                               (to_int32 (length frame)) [] = ScanFault f
                          /\ dispatchFrame env frame st = Crash f)).
  { intros Hf.
    pose proof (scanNALUs_outcome env scan_rounds (payload frame) 0
                  (to_int32 (length frame)) []) as Hout.
    rewrite scan_rounds_eq in Hout. specialize (Hout ltac:(cbn; lia) ltac:(cbn; lia)).
    destruct (scanNALUs env scan_rounds (payload frame) 0 (to_int32 (length frame)) [])
      as [frag how|f] eqn:Hscan.
    - left. eexists. exact (dispatchFrame_nal_run env frame st rtp frag how Hf Hrtp Hscan).
    - right. split; [exact Hf|]. exists f. split; [exact Hout|]. split; [reflexivity|].
      exact (dispatchFrame_nal_fault env frame st f Hf Hscan). }
  destruct (format frame) eqn:Hf;
    try (left; exists []; unfold dispatchFrame; rewrite Hf; reflexivity).
  - left. eexists. apply dispatchFrame_vpx_run with (rtp := rtp); [left|]; assumption.
  - left. eexists. apply dispatchFrame_vpx_run with (rtp := rtp); [right|]; assumption.
  - apply Hnal. left. reflexivity.
  - apply Hnal. right. reflexivity.
Qed.

(** [onFrame] past the gate, split at the dispatch. *)
Lemma onFrame_open_split env frame st :
  m_enabled st = true ->
  m_keyFrameArrived st = true \/ isKeyFrame (additionalInfo_video frame) = true ->
  exists pre,
    updateCodecState env frame (set_m_keyFrameArrived true st)
    = Done tt (cached frame (set_m_keyFrameArrived true st)) pre
    /\ (forall c, In c pre -> is_send c = false /\ is_feedback c = false)
    /\ onFrame env frame st
       = match dispatchFrame env frame (cached frame (set_m_keyFrameArrived true st)) with
         | Done _ st2 c2 => Done tt st2 (pre ++ c2)
         | Crash f => Crash f
         end.
Proof.
  intros He Hg.
  destruct (updateCodecState_run env frame (set_m_keyFrameArrived true st))
    as (pre & Hrun & _ & Hpre).
  exists pre. split; [exact Hrun|]. split; [exact Hpre|].
  rewrite onFrame_gate_open by assumption.
  unfold bind at 1. rewrite Hrun.
  destruct (dispatchFrame _ _ _) as [[] st2 c2|]; reflexivity.
Qed.

(** X4.  With the RTP/RTCP module there, [onFrame] returns for every frame
    of every format, but for an H.264 or H.265 frame past the gate whose
    scan is stopped by its 65536th unit or by a signed overflow: the
    assertion inside [setSendCodec] holds on the path from [onFrame], the
    conversion of the scaled bitrate is defined, and the scan loop ends
    within its rounds.  A frame whose scan is stopped makes [onFrame] fail
    with the fault of the scan. *)
Theorem onFrame_returns env frame st rtp :
  m_rtpRtcp st = Some rtp ->
  (exists st' calls, onFrame env frame st = Done tt st' calls)
  \/ ((format frame = FRAME_FORMAT_H264 \/ format frame = FRAME_FORMAT_H265)
      /\ exists f,
           (f = header_full_fault env \/ f = IntegerOverflow)
           /\ scanNALUs env scan_rounds (payload frame) 0 (to_int32 (length frame)) []
              = ScanFault f
           /\ onFrame env frame st = Crash f).
Proof.
  intros Hrtp.
  destruct (m_enabled st) eqn:He;
    [|left; eexists; eexists; apply onFrame_disabled_run; exact He].
  assert (Hopen : m_keyFrameArrived st = true
                  \/ isKeyFrame (additionalInfo_video frame) = true ->
                  (exists st' calls, onFrame env frame st = Done tt st' calls)
                  \/ ((format frame = FRAME_FORMAT_H264
                       \/ format frame = FRAME_FORMAT_H265)
                      /\ exists f,
                           (f = header_full_fault env \/ f = IntegerOverflow)
                           /\ scanNALUs env scan_rounds (payload frame) 0
                                (to_int32 (length frame)) [] = ScanFault f
                           /\ onFrame env frame st = Crash f)).
  { intros Hg. destruct (onFrame_open_split env frame st He Hg) as (pre & _ & _ & ->).
    destruct (dispatchFrame_outcome env frame
                (cached frame (set_m_keyFrameArrived true st)) rtp Hrtp)
      as [(calls & ->)|(Hf & f & Hwhich & Hscan & ->)].
    - left. eexists. eexists. reflexivity.
    - right. split; [exact Hf|]. exists f. split; [exact Hwhich|].
      split; [exact Hscan|reflexivity]. }
  destruct (m_keyFrameArrived st) eqn:Hk; [apply Hopen; left; reflexivity|].
  destruct (isKeyFrame (additionalInfo_video frame)) eqn:Hf;
    [apply Hopen; right; reflexivity|].
  left. eexists. eexists. apply onFrame_closed_run; assumption.
Qed.

(** X5.  Steady state.  A VP8 or VP9 frame whose format and size are the
    cached ones, on an enabled instance past the gate, costs one call:
    [SendOutgoingData] with the format's payload type, the frame's timestamp
    and the timestamp divided by 90, the whole payload and no fragmentation
    header.  Nothing is registered again and the members stay as they are,
    whether the frame is a key frame or not. *)
Theorem onFrame_steady_state env frame st rtp :
  m_enabled st = true ->
  m_keyFrameArrived st = true ->
  m_rtpRtcp st = Some rtp ->
  format frame = FRAME_FORMAT_VP8 \/ format frame = FRAME_FORMAT_VP9 ->
  m_frameFormat st = format frame ->
  m_frameWidth st = width (additionalInfo_video frame) ->
  m_frameHeight st = height (additionalInfo_video frame) ->
  onFrame env frame st
  = Done tt st [sendCall (vpx_payload_type (format frame)) frame None
                  (vpx_header (format frame))].
Proof.
  intros He Hk Hrtp Hfmt Hf Hw Hh.
  rewrite onFrame_gate_open by (try assumption; left; assumption).
  rewrite set_m_keyFrameArrived_same by assumption.
  unfold bind. rewrite updateCodecState_same by assumption. cbv beta iota.
  rewrite (dispatchFrame_vpx_run env frame st rtp Hfmt Hrtp). reflexivity.
Qed.

(** X6.  Change of codec or size.  A VP8 or VP9 frame past the gate whose
    format, width or height differs from the cache makes [onFrame] push the
    bitrate bounds of the new size and register the payload once, and then
    send the frame, whatever [RegisterSendPayload] answers; the cache holds
    the new values, and the same frame delivered again is only sent. *)
Theorem onFrame_codec_change env frame st rtp codec :
  m_enabled st = true ->
  m_keyFrameArrived st = true \/ isKeyFrame (additionalInfo_video frame) = true ->
  m_rtpRtcp st = Some rtp ->
  format frame = FRAME_FORMAT_VP8 \/ format frame = FRAME_FORMAT_VP9 ->
  sendCodec (format frame) = Some codec ->
  m_frameFormat st <> format frame
  \/ m_frameWidth st <> width (additionalInfo_video frame)
  \/ m_frameHeight st <> height (additionalInfo_video frame) ->
  let st1 := cached frame (set_m_keyFrameArrived true st) in
  let send := sendCall (vpx_payload_type (format frame)) frame None
                (vpx_header (format frame)) in
  exists target,
    targetKbps env (format frame) (width (additionalInfo_video frame))
      (height (additionalInfo_video frame)) = Some target
    /\ onFrame env frame st
       = Done tt st1
           [SetStartBitrate (to_uint32 (target * 1000));
            SetMinMaxBitrate (to_uint32 (target / 4 * 1000))
                             (to_uint32 (2 * target * 1000));
            RegisterSendPayload codec;
            send]
    /\ onFrame env frame st1 = Done tt st1 [send].
Proof.
  intros He Hg Hrtp Hfmt Hc Hdiff st1 send. subst send.
  assert (He1 : m_enabled st1 = true) by exact He.
  assert (Hk1 : m_keyFrameArrived st1 = true) by reflexivity.
  assert (Hrtp1 : m_rtpRtcp st1 = Some rtp) by exact Hrtp.
  assert (Hf1 : m_frameFormat st1 = format frame) by reflexivity.
  assert (Hw1 : m_frameWidth st1 = width (additionalInfo_video frame)) by reflexivity.
  assert (Hh1 : m_frameHeight st1 = height (additionalInfo_video frame)) by reflexivity.
  eexists. split; [apply targetKbps_eq|]. split.
  - rewrite onFrame_gate_open by assumption.
    unfold bind.
    rewrite (updateCodecState_changed env frame (set_m_keyFrameArrived true st) codec)
      by assumption.
    replace (m_rtpRtcp (set_m_keyFrameArrived true st)) with (Some rtp)
      by (symmetry; exact Hrtp).
    cbv beta iota zeta. fold st1.
    rewrite (dispatchFrame_vpx_run env frame st1 rtp Hfmt Hrtp1). reflexivity.
  - clearbody st1.
    rewrite onFrame_gate_open by (try assumption; left; assumption).
    rewrite set_m_keyFrameArrived_same by assumption.
    unfold bind. rewrite updateCodecState_same by assumption. cbv beta iota.
    rewrite (dispatchFrame_vpx_run env frame st1 rtp Hfmt Hrtp1). reflexivity.
Qed.

(** ** The fragmentation header *)

(** With a scanner that stays within its bytes, the loop extends the header
    it started from by entries that lie in the bytes still to scan, in
    order and without overlap; it is stopped only by a unit for which the
    header has no entry left, and then the entries held and the bytes left
    were more than 65535. *)
Lemma scanNALUs_sound env payload :
  scanner_in_bounds env payload ->
  forall fuel offset buffer_length frag_info,
    0 <= offset ->
    offset + Z.max 0 buffer_length < 2 ^ 31 ->
    fragmentationVectorSize frag_info <= 65535 ->
    65536 <= fragmentationVectorSize frag_info + Z.of_nat fuel ->
    (exists entries how,
       scanNALUs env fuel payload offset buffer_length frag_info
       = Scanned (frag_info ++ entries) how
       /\ fragments_between offset (offset + Z.max 0 buffer_length) entries)
    \/ (65535 < fragmentationVectorSize frag_info + buffer_length
        /\ scanNALUs env fuel payload offset buffer_length frag_info
           = ScanFault (header_full_fault env)).
Proof.
  intros Hin. induction fuel as [|fuel IH];
    intros offset len frag Hoff Hend Hfits Hfuel; [lia|].
  destruct (Z.le_gt_cases len 0) as [Hlen|Hlen].
  { left. exists [], BufferConsumed. rewrite app_nil_r.
    split; [apply scanNALUs_nothing; exact Hlen|exact I]. }
  destruct (findNALU env payload offset len) as [[found start] e] eqn:Hf.
  destruct (scanNALUs_round env fuel payload offset len frag found start e
              ltac:(lia) Hf)
    as [(_ & ->)|[(_ & Hfull & ->)|[(Hr & _ & Hover)|(Hr & Hroom & _ & _ & _ & ->)]]].
  - left. exists [], ScanError. rewrite app_nil_r. split; [reflexivity|exact I].
  - right. split; [lia|reflexivity].
  - exfalso. destruct (Hin offset len found start e ltac:(lia) Hf Hr) as (Hs & Hadv & Hin').
    destruct Hover as [Hp|(_ & Hi)]; [apply Hp|apply Hi]; lia.
  - destruct (Hin offset len found start e ltac:(lia) Hf Hr) as (Hs & Hadv & Hin').
    set (r := to_int32 found) in *. set (s := to_int32 start) in *.
    rewrite to_size_t_small by lia.
    specialize (IH (offset + (s + r)) (len - (s + r)) (frag ++ [(s + offset, r)])).
    rewrite fragmentationVectorSize_app in IH.
    change (fragmentationVectorSize [_]) with 1 in IH.
    destruct (IH ltac:(lia) ltac:(lia) ltac:(lia) ltac:(lia))
      as [(entries & how & -> & Hbetween)|(Hmany & ->)].
    + left. exists ((s + offset, r) :: entries), how. split.
      * rewrite <- app_assoc. reflexivity.
      * cbn [fragments_between]. repeat split; try lia.
        replace (s + offset + r) with (offset + (s + r)) by lia.
        replace (offset + Z.max 0 len)
          with (offset + (s + r) + Z.max 0 (len - (s + r))) by lia.
        exact Hbetween.
    + right. split; [lia|reflexivity].
Qed.

(** X7.  An H.264 or H.265 frame past the gate, scanned by a [findNALU]
    that reports units within the bytes it is given, is sent once with a
    fragmentation header of 65535 entries at most, whose entries lie within
    the payload ([0 <= offset], [offset + length <= frame.length]), in the
    order of the payload and without overlap.  The one other outcome needs
    a frame of more than 65535 bytes: its 65536th unit stops [onFrame] with
    the fault of the full header, and nothing is sent. *)
Theorem onFrame_nal_fragmentation env frame st rtp :
  m_enabled st = true ->
  m_keyFrameArrived st = true \/ isKeyFrame (additionalInfo_video frame) = true ->
  format frame = FRAME_FORMAT_H264 \/ format frame = FRAME_FORMAT_H265 ->
  m_rtpRtcp st = Some rtp ->
  0 <= length frame < 2 ^ 31 ->
  scanner_in_bounds env (payload frame) ->
  (exists frag st' calls,
     onFrame env frame st = Done tt st' calls
     /\ filter is_send calls
        = [sendCall (nal_payload_type (format frame)) frame (Some frag)
             (nal_header (format frame))]
     /\ fragments_between 0 (length frame) frag
     /\ fragmentationVectorSize frag <= 65535)
  \/ (65535 < length frame
      /\ onFrame env frame st = Crash (header_full_fault env)).
Proof.
  intros He Hg Hfmt Hrtp Hlen Hin.
  assert (Hint : to_int32 (length frame) = length frame)
    by (apply to_int32_small; lia).
  destruct (onFrame_open_split env frame st He Hg) as (pre & _ & Hpre & ->).
  destruct (scanNALUs_sound env (payload frame) Hin scan_rounds 0
              (to_int32 (length frame)) [])
    as [(frag & how & Hscan & Hbetween)|(Hmany & Hscan)];
    try (rewrite ?scan_rounds_eq, ?Hint; cbn; lia).
  - left. cbn [app] in Hscan.
    pose proof (scanNALUs_outcome env scan_rounds (payload frame) 0
                  (to_int32 (length frame)) []) as Hout.
    rewrite Hscan, scan_rounds_eq in Hout.
    destruct (Hout ltac:(cbn; lia) ltac:(cbn; lia)) as (Hfits & _).
    rewrite Hint, Z.max_r, Z.add_0_l in Hbetween by lia.
    rewrite (dispatchFrame_nal_run env frame
               (cached frame (set_m_keyFrameArrived true st)) rtp frag how
               Hfmt Hrtp Hscan).
    exists frag. eexists. eexists. split; [reflexivity|].
    split; [|split; [exact Hbetween|exact Hfits]].
    rewrite filter_app, (filter_none _ pre) by (intros c Hc; apply Hpre; exact Hc).
    reflexivity.
  - right. rewrite Hint in Hmany. cbn in Hmany. split; [lia|].
    rewrite (dispatchFrame_nal_fault env frame
               (cached frame (set_m_keyFrameArrived true st)) _ Hfmt Hscan).
    reflexivity.
Qed.

(** X8.  An H.264 or H.265 frame whose [length], read as the [int]
    [buffer_length], is not positive (a length of zero, or one of [2^31] and
    more) is not scanned at all: [findNALU] is never consulted and the frame
    is sent with an empty fragmentation header. *)
Theorem onFrame_nal_not_scanned env frame st rtp :
  m_enabled st = true ->
  m_keyFrameArrived st = true \/ isKeyFrame (additionalInfo_video frame) = true ->
  format frame = FRAME_FORMAT_H264 \/ format frame = FRAME_FORMAT_H265 ->
  m_rtpRtcp st = Some rtp ->
  to_int32 (length frame) <= 0 ->
  exists st' calls,
    onFrame env frame st = Done tt st' calls
    /\ filter is_send calls
       = [sendCall (nal_payload_type (format frame)) frame (Some [])
            (nal_header (format frame))]
    /\ forall env',
         NDEBUG env' = NDEBUG env ->
         calcBitrate env' = calcBitrate env ->
         RegisterSendPayload_result env' = RegisterSendPayload_result env ->
         onFrame env' frame st = onFrame env frame st.
Proof.
  intros He Hg Hfmt Hrtp Hlen.
  assert (Hscan : forall e, scanNALUs e scan_rounds (payload frame) 0
                              (to_int32 (length frame)) []
                            = Scanned [] BufferConsumed)
    by (intros e; apply scanNALUs_nothing; exact Hlen).
  assert (Hrun : forall e,
             exists pre,
               (forall c, In c pre -> is_send c = false /\ is_feedback c = false)
               /\ updateCodecState e frame (set_m_keyFrameArrived true st)
                  = Done tt (cached frame (set_m_keyFrameArrived true st)) pre
               /\ onFrame e frame st
                  = Done tt (cached frame (set_m_keyFrameArrived true st))
                      (pre ++ [sendCall (nal_payload_type (format frame)) frame (Some [])
                                 (nal_header (format frame))])).
  { intros e.
    destruct (onFrame_open_split e frame st He Hg) as (pre & Hu & Hpre & ->).
    rewrite (dispatchFrame_nal_run e frame
               (cached frame (set_m_keyFrameArrived true st)) rtp [] BufferConsumed
               Hfmt Hrtp (Hscan e)).
    exists pre. split; [exact Hpre|]. split; [exact Hu|reflexivity]. }
  destruct (Hrun env) as (pre & Hpre & Hu & Hon).
  eexists. eexists. split; [exact Hon|]. split.
  - rewrite filter_app, (filter_none _ pre) by (intros c Hc; apply Hpre; exact Hc).
    reflexivity.
  - intros env' Hn Hc Hr.
    destruct (Hrun env') as (pre' & _ & Hu' & ->). rewrite Hon.
    assert (Hsame : updateCodecState env' frame (set_m_keyFrameArrived true st)
                    = updateCodecState env frame (set_m_keyFrameArrived true st)).
    { unfold updateCodecState, bind, gets, modify. cbv beta iota zeta.
      destruct (_ || _); [|reflexivity].
      rewrite !setSendCodec_run, Hn, Hc, Hr. reflexivity. }
    rewrite Hu, Hu' in Hsame. injection Hsame as ->. reflexivity.
Qed.

(** ** Enabling, binding, feedback, teardown *)

Lemma unbindTransport_calls env st :
  exists calls,
    unbindTransport env st = Done tt (set_videoSink_ None st) calls
    /\ (calls = [] \/ exists fbSource, calls = [setFeedbackSink fbSource None]).
Proof.
  unfold unbindTransport, bind, gets, modify. cbv beta iota.
  destruct (videoSink_ st) as [s|] eqn:Hs.
  - destruct (getFeedbackSource env s) as [fb|]; unfold call, ret; eexists;
      (split; [reflexivity|]); [right; exists fb; reflexivity | left; reflexivity].
  - exists []. split; [|left; reflexivity]. unfold ret. f_equal.
    destruct st; unfold set_videoSink_; cbn in *. congruence.
Qed.

(** X9.  Frames delivered while the instance is disabled are ignored
    altogether, key frames included: no call, no member written, the gate
    not opened.  Enabling again asks for a key frame once and changes nothing
    else, so the next frame is treated exactly as on the instance had it
    stayed enabled: a disable/enable cycle neither closes the gate nor
    clears the codec cache. *)
Theorem disable_enable_cycle env frame1 frame2 st :
  (enable false ;; onFrame env frame1 ;; enable true ;; onFrame env frame2) st
  = match onFrame env frame2 (set_m_enabled true st) with
    | Done _ st2 calls2 => Done tt st2 (keyFrameRequest :: calls2)
    | Crash f => Crash f
    end.
Proof.
  unfold bind at 1. unfold enable at 1, bind, modify, gets. cbv beta iota.
  cbn [m_enabled set_m_enabled ret app].
  rewrite (onFrame_disabled_run env frame1 (set_m_enabled false st) eq_refl).
  unfold enable, bind, modify, gets, requestKeyFrame, call. cbv beta iota.
  cbn [m_enabled set_m_enabled app].
  change (set_m_enabled true (set_m_enabled false st)) with (set_m_enabled true st).
  destruct (onFrame env frame2 (set_m_enabled true st)) as [[] st2 c2|]; reflexivity.
Qed.

(** X10.  Inbound video data follows the binding: after [bindTransport] of a
    sink the data is delivered to that sink, once; after [unbindTransport]
    it is dropped.  Data of another type than video aborts in the assertion,
    and in a build without assertions is delivered as video all the same. *)
Theorem receiveRtpData_follows_binding env st rtp s buf len channelId :
  m_rtpRtcp st = Some rtp ->
  (exists calls,
      (bindTransport env (Some s) ;; receiveRtpData env buf len VIDEO channelId) st
      = Done tt (set_videoSink_ (Some s) st) (calls ++ [deliverVideoData s buf len])
      /\ filter is_deliverVideoData calls = [])
  /\ (exists calls,
        (unbindTransport env ;; receiveRtpData env buf len VIDEO channelId) st
        = Done tt (set_videoSink_ None st) calls
        /\ filter is_deliverVideoData calls = [])
  /\ (videoSink_ st = Some s ->
      receiveRtpData env buf len AUDIO channelId st
      = if NDEBUG env then Done tt st [deliverVideoData s buf len]
        else Crash AssertionFailed).
Proof.
  intros Hrtp. split; [|split].
  - unfold bind at 1. rewrite (bindTransport_run env s st rtp Hrtp).
    exists (setVideoSinkSSRC s (SSRC rtp)
            :: match getFeedbackSource env s with
               | Some fbSource => [setFeedbackSink fbSource (Some FeedbackSink_this)]
               | None => []
               end).
    split.
    + unfold receiveRtpData, assert, bind, gets, call, ret. cbv beta iota.
      cbn [videoSink_ set_videoSink_ orb app]. reflexivity.
    + destruct (getFeedbackSource env s); reflexivity.
  - unfold bind at 1.
    destruct (unbindTransport_calls env st) as (calls & Hu & Hshape).
    rewrite Hu.
    assert (Hc : filter is_deliverVideoData calls = [])
      by (destruct Hshape as [->|[fb ->]]; reflexivity).
    exists calls. split; [|exact Hc].
    unfold receiveRtpData, bind, gets, ret. cbv beta iota.
    cbn [videoSink_ set_videoSink_]. rewrite app_nil_r. reflexivity.
  - intros Hs. unfold receiveRtpData, assert, bind, gets, call, ret, crash.
    cbv beta iota. rewrite Hs. cbn [orb].
    destruct (NDEBUG env); reflexivity.
Qed.

Lemma run_request_op env op st :
  is_request_op op = true -> run_op env op st = Done tt st [keyFrameRequest].
Proof. destruct op; try discriminate; reflexivity. Qed.

(** X11.  Key-frame requests are passed on one for one: a run of
    [OnReceivedIntraFrameRequest] and [sendFirPacket] calls gives as many
    feedback messages as there are calls, in any state of the instance
    (disabled, gate closed or open), and changes no member.  Nothing
    coalesces or limits them. *)
Theorem key_frame_requests_one_for_one script : forall st,
  forallb (fun step => is_request_op (snd step)) script = true ->
  run script st = Done tt st (repeat keyFrameRequest (List.length script)).
Proof.
  induction script as [|[env op] rest IH]; intros st Hall; [reflexivity|].
  cbn [forallb snd] in Hall. apply andb_true_iff in Hall as [Hop Hrest].
  cbn [run]. unfold bind.
  rewrite (run_request_op env op st Hop), (IH st Hrest). reflexivity.
Qed.

(** X12.  [close] does what [unbindTransport] does and then deregisters the
    RTP/RTCP module; the destructor adds the stop of the task runner.  All
    three always return, leave no sink bound, and make at most one call on a
    feedback source, the one that clears its feedback sink. *)
Theorem close_and_destructor env st :
  exists calls,
    unbindTransport env st = Done tt (set_videoSink_ None st) calls
    /\ close env st = Done tt (set_videoSink_ None st) (calls ++ [DeRegisterModule])
    /\ destruct_ env st
       = Done tt (set_videoSink_ None st)
           (calls ++ [DeRegisterModule; TaskRunner_Stop])
    /\ (calls = [] \/ exists fbSource, calls = [setFeedbackSink fbSource None]).
Proof.
  destruct (unbindTransport_calls env st) as (calls & Hu & Hshape). exists calls.
  assert (Hclose : close env st
                   = Done tt (set_videoSink_ None st) (calls ++ [DeRegisterModule])).
  { revert Hu. unfold unbindTransport, close, bind, gets, modify, call, ret.
    cbv beta iota.
    destruct (videoSink_ st) as [s0|]; [destruct (getFeedbackSource env s0)|];
      intros Hu;
      first [ injection Hu as Hst <-; rewrite <- Hst | injection Hu as <- ];
      reflexivity. }
  split; [exact Hu|]. split; [exact Hclose|]. split; [|exact Hshape].
  unfold destruct_, bind. rewrite Hclose. unfold call.
  rewrite <- app_assoc. reflexivity.
Qed.

(** X13.  Construction.  When [CreateRtpRtcp] gives a module the constructor
    returns an enabled instance with the gate closed, an unknown codec cache
    and no sink, after starting the task runner, setting the start bitrate to
    300 kbps and the bounds to 0, and configuring the module: FEC switched
    off whatever [enableRed] and [enableUlpfec] say (they only choose the
    payload types passed along), REMB on, 600 packets stored for
    retransmission, the module registered.  When [CreateRtpRtcp] gives null,
    the first configuration call dereferences it. *)
Theorem construct_outcome env enableRed enableUlpfec :
  construct env enableRed enableUlpfec
  = match CreateRtpRtcp env with
    | Some rtp =>
        Done tt
          {| m_enabled := true; m_keyFrameArrived := false;
             m_frameFormat := FRAME_FORMAT_UNKNOWN;
             m_frameWidth := 0; m_frameHeight := 0;
             videoSink_ := None; m_rtpRtcp := Some rtp |}
          [TaskRunner_Start; SetStartBitrate 300000; SetMinMaxBitrate 0 0;
           SetGenericFECStatus false
             (if enableRed then Some RED_90000_PT else None)
             (if enableUlpfec then Some ULP_90000_PT else None);
           SetREMBStatus true; SetStorePacketsStatus true 600; RegisterModule]
    | None => Crash NullDereference
    end.
Proof.
  unfold construct, init, deref_rtpRtcp, bind, call, modify, gets, ret, crash.
  cbv beta iota zeta. cbn [m_rtpRtcp set_m_rtpRtcp initial_members].
  destruct (CreateRtpRtcp env); reflexivity.
Qed.

(** X14.  [setSendCodec] either aborts in its assertion or returns with the
    members exactly as they were; the only calls it makes are
    [SetStartBitrate], [SetMinMaxBitrate] and [RegisterSendPayload].  It
    never sends, never gives feedback, never dereferences a null module and
    never converts a bitrate that [uint32_t] cannot hold. *)
Theorem setSendCodec_effects env f w h st :
  setSendCodec env f w h st = Crash AssertionFailed
  \/ exists b calls,
       setSendCodec env f w h st = Done b st calls
       /\ forallb is_codec_setup calls = true
       /\ (Datatypes.length calls <= 3)%nat.
Proof.
  rewrite setSendCodec_run.
  destruct (_ || _); [right|left; reflexivity].
  destruct (sendCodec f) as [codec|].
  - cbv zeta. eexists. eexists. split; [reflexivity|].
    destruct (m_rtpRtcp st); split; cbn; try reflexivity; lia.
  - exists false, []. split; [reflexivity|]. split; [reflexivity|cbn; lia].
Qed.

(** X15.  The bitrate bounds are ordered.  The target never exceeds the
    estimate of [calcBitrate] (for VP8 it is the estimate's nine tenths,
    rounded down), so its conversion to [uint32_t] is always defined; in kbps
    the minimum is at most the target and the target at most the maximum, and
    the same holds of the three values pushed in bps when the maximum fits 32
    bits. *)
Theorem bitrate_bounds_ordered env f w h :
  exists target,
    targetKbps env f w h = Some target
    /\ 0 <= target <= to_uint32 (calcBitrate env w h)
    /\ (f = FRAME_FORMAT_VP8 ->
        10 * target <= 9 * to_uint32 (calcBitrate env w h) < 10 * target + 10)
    /\ (f <> FRAME_FORMAT_VP8 -> target = to_uint32 (calcBitrate env w h))
    /\ target / 4 <= target <= 2 * target
    /\ (2 * target * 1000 < 2 ^ 32 ->
        to_uint32 (target / 4 * 1000) <= to_uint32 (target * 1000)
        <= to_uint32 (2 * target * 1000)).
Proof.
  eexists. split; [apply targetKbps_eq|].
  pose proof (to_uint32_range (calcBitrate env w h)) as Hr.
  set (estimate := to_uint32 (calcBitrate env w h)) in *.
  assert (Ht : 0 <= (if FrameFormat_eqb f FRAME_FORMAT_VP8
                     then 9 * estimate / 10 else estimate) <= estimate).
  { destruct (FrameFormat_eqb f FRAME_FORMAT_VP8); [|lia].
    split; [apply Z.div_pos; lia|]. apply Z.div_le_upper_bound; lia. }
  split; [exact Ht|]. split; [|split; [|split]].
  - intros ->. rewrite FrameFormat_eqb_refl.
    pose proof (Z.div_mod (9 * estimate) 10 ltac:(lia)).
    pose proof (Z.mod_pos_bound (9 * estimate) 10 ltac:(lia)). lia.
  - intros Hne. rewrite (FrameFormat_eqb_neq _ _ Hne). reflexivity.
  - split; [apply Z.div_le_upper_bound; lia|lia].
  - intros Hmax.
    assert (0 <= (if FrameFormat_eqb f FRAME_FORMAT_VP8
                  then 9 * estimate / 10 else estimate) / 4
            <= (if FrameFormat_eqb f FRAME_FORMAT_VP8
                then 9 * estimate / 10 else estimate)).
    { split; [apply Z.div_pos; lia|]. apply Z.div_le_upper_bound; lia. }
    rewrite !to_uint32_small by lia. lia.
Qed.

(** X16.  [deliverFeedback] hands the bytes to [IncomingRtcpPacket], once,
    and returns 0 when the answer is -1 and [len] for every other answer,
    other negative values included; a length of zero therefore returns 0
    either way.  No member is written.  Without an RTP/RTCP module the call
    is a null dereference. *)
Theorem deliverFeedback_result env buf len st :
  (m_rtpRtcp st = None -> deliverFeedback env buf len st = Crash NullDereference)
  /\ (m_rtpRtcp st <> None ->
      exists n,
        deliverFeedback env buf len st = Done n st [IncomingRtcpPacket buf len]
        /\ (IncomingRtcpPacket_result env buf len = -1 -> n = 0)
        /\ (IncomingRtcpPacket_result env buf len <> -1 -> n = len)
        /\ (len = 0 -> n = 0)).
Proof.
  unfold deliverFeedback, deref_rtpRtcp, bind, gets, call, ret, crash.
  cbv beta iota. split.
  - intros ->. reflexivity.
  - destruct (m_rtpRtcp st) as [rtp|]; [intros _|congruence].
    eexists. split; [reflexivity|].
    destruct (Z.eqb_spec (IncomingRtcpPacket_result env buf len) (-1)) as [E|E];
      repeat split; intros; congruence.
Qed.

Lemma deliverFeedback_result_witness :
  m_rtpRtcp fresh <> None
  /\ deliverFeedback (sample_env false) [129; 201] 2 fresh
     = Done 2 fresh [IncomingRtcpPacket [129; 201] 2].
Proof.
  assert (Hfresh : m_rtpRtcp fresh <> None) by discriminate.
  split; [exact Hfresh|].
  destruct (proj2 (deliverFeedback_result (sample_env false) [129; 201] 2 fresh) Hfresh)
    as (n & Hrun & _ & Hok & _).
  rewrite Hrun. f_equal. apply Hok. discriminate.
Defined.

(** ** Closed instances of the further properties *)

Lemma start_code_at_bound bytes : forall i j,
  start_code_at bytes i = Some j -> i <= j /\ j + 3 <= i + Z.of_nat (List.length bytes).
Proof.
  induction bytes as [|b0 rest IH]; intros i j H; [discriminate|].
  cbn [start_code_at] in H. cbn [List.length].
  assert (Hrec : start_code_at rest (i + 1) = Some j ->
                 i <= j /\ j + 3 <= i + Z.of_nat (S (List.length rest)))
    by (intros Hr; apply IH in Hr; lia).
  destruct b0; try exact (Hrec H).
  destruct rest as [|b1 rest1]; try exact (Hrec H).
  destruct b1; try exact (Hrec H).
  destruct rest1 as [|b2 rest2]; try exact (Hrec H).
  destruct b2 as [|q|q]; try exact (Hrec H).
  destruct q; try exact (Hrec H).
  injection H as <-. cbn [List.length]. lia.
Qed.

Lemma unit_length_le bytes : unit_length bytes <= Z.of_nat (List.length bytes).
Proof.
  induction bytes as [|b0 rest IH]; cbn [unit_length List.length]; [lia|].
  destruct b0; try lia.
  destruct rest as [|b1 rest1]; try lia.
  destruct b1; try lia.
  destruct rest1 as [|b2 rest2]; try lia.
  destruct b2 as [|q|q]; try lia.
  destruct q; lia.
Qed.

Lemma annexb_scanner_in_bounds payload offset size r s e :
  annexb_scanner payload offset size = (r, s, e) -> 0 <= r ->
  0 <= s /\ 0 < s + r <= size.
Proof.
  unfold annexb_scanner. cbv zeta.
  set (view := firstn (Z.to_nat size) (skipn (Z.to_nat offset) payload)).
  destruct (start_code_at view 0) as [i|] eqn:Hi; [|intros [= <- _ _]; lia].
  intros [= <- <- _] _. apply start_code_at_bound in Hi.
  pose proof (unit_length_nonneg (skipn (Z.to_nat (i + 3)) view)) as Hlo.
  pose proof (unit_length_le (skipn (Z.to_nat (i + 3)) view)) as Hhi.
  rewrite length_skipn in Hhi.
  assert (Hview : (List.length view <= Z.to_nat size)%nat)
    by (subst view; rewrite length_firstn; apply Nat.le_min_l).
  lia.
Qed.

Lemma annexb_scanner_reads_in_bounds (env : Env) payload :
  findNALU env = annexb_scanner -> scanner_in_bounds env payload.
Proof.
  intros Hscanner offset size r s e Hsize Hf Hr. rewrite Hscanner in Hf.
  assert (Hraw : r = -1 \/ (0 <= r /\ 0 <= s /\ 0 < s + r <= size)).
  { destruct (Z.neg_nonneg_cases r) as [Hn|Hn].
    - left. revert Hf. unfold annexb_scanner. cbv zeta.
      destruct (start_code_at _ 0) as [i|].
      + intros [= <- _ _].
        pose proof (unit_length_nonneg
                      (skipn (Z.to_nat (i + 3))
                         (firstn (Z.to_nat size) (skipn (Z.to_nat offset) payload)))).
        lia.
      + intros [= <- _ _]. reflexivity.
    - right. split; [exact Hn|].
      exact (annexb_scanner_in_bounds payload offset size r s e Hf Hn). }
  destruct Hraw as [->|(Hr0 & Hs & Hadv)]; [vm_compute in Hr; contradiction|].
  rewrite (to_int32_small r), (to_int32_small s) by lia. lia.
Qed.

Lemma no_send_before_first_key_frame_witness :
  exists st' calls,
    run closed_script fresh = Done tt st' calls
    /\ m_keyFrameArrived st' = false
    /\ filter is_send calls = [].
Proof.
  destruct (run closed_script fresh) as [[] st' calls|f] eqn:Hrun;
    [|vm_compute in Hrun; discriminate].
  assert (Hclosed : m_keyFrameArrived st' = false)
    by (vm_compute in Hrun; injection Hrun as <- _; reflexivity).
  exists st', calls. split; [reflexivity|]. split; [exact Hclosed|].
  exact (no_send_before_first_key_frame closed_script fresh st' calls Hrun Hclosed).
Defined.

Lemma engine_handle_stays_witness :
  m_rtpRtcp fresh <> None
  /\ exists st' calls,
       run sample_script fresh = Done tt st' calls /\ m_rtpRtcp st' <> None.
Proof.
  assert (Hfresh : m_rtpRtcp fresh <> None) by discriminate.
  split; [exact Hfresh|].
  destruct (run sample_script fresh) as [[] st' calls|f] eqn:Hrun;
    [|vm_compute in Hrun; discriminate].
  exists st', calls. split; [reflexivity|].
  exact (proj2 engine_handle_stays sample_script fresh st' calls Hfresh Hrun).
Defined.

Lemma onFrame_returns_witness :
  m_rtpRtcp fresh = Some sample_rtp
  /\ exists st' calls,
       onFrame (sample_env false) (sample_frame FRAME_FORMAT_H265 true two_unit_payload)
         fresh = Done tt st' calls.
Proof.
  split; [reflexivity|].
  destruct (onFrame_returns (sample_env false)
              (sample_frame FRAME_FORMAT_H265 true two_unit_payload) fresh sample_rtp
              eq_refl)
    as [Hdone|(_ & f & _ & Hscan & _)]; [exact Hdone|].
  vm_compute in Hscan. discriminate.
Defined.

Lemma onFrame_steady_state_witness :
  (m_enabled streaming_vp8 = true /\ m_keyFrameArrived streaming_vp8 = true
   /\ m_frameFormat streaming_vp8 = FRAME_FORMAT_VP8
   /\ m_frameWidth streaming_vp8 = 640 /\ m_frameHeight streaming_vp8 = 480)
  /\ onFrame (rejecting_env false)
       (sample_frame FRAME_FORMAT_VP8 false sample_payload) streaming_vp8
     = Done tt streaming_vp8
         [SendOutgoingData kVideoFrameKey VP8_90000_PT 90000 1000 sample_payload 9
            None {| codec := kRtpVideoVp8; codecHeader_initialised := true |}].
Proof.
  split; [repeat split|].
  exact (onFrame_steady_state (rejecting_env false)
           (sample_frame FRAME_FORMAT_VP8 false sample_payload) streaming_vp8
           sample_rtp eq_refl eq_refl eq_refl (or_introl eq_refl)
           eq_refl eq_refl eq_refl).
Defined.

Lemma onFrame_codec_change_witness :
  (m_frameWidth streaming_vp8 <> 1280
   /\ RegisterSendPayload_result (rejecting_env false)
        {| codecType := kVideoCodecVP8; plName := "VP8"; plType := VP8_90000_PT |}
      = -1)
  /\ exists target st1,
       onFrame (rejecting_env false)
         {| format := FRAME_FORMAT_VP8; payload := sample_payload; length := 9;
            timeStamp := 180000;
            additionalInfo_video :=
              {| width := 1280; height := 720; isKeyFrame := false |} |}
         streaming_vp8
       = Done tt st1
           [SetStartBitrate (to_uint32 (target * 1000));
            SetMinMaxBitrate (to_uint32 (target / 4 * 1000))
                             (to_uint32 (2 * target * 1000));
            RegisterSendPayload
              {| codecType := kVideoCodecVP8; plName := "VP8";
                 plType := VP8_90000_PT |};
            SendOutgoingData kVideoFrameKey VP8_90000_PT 180000 2000 sample_payload 9
              None {| codec := kRtpVideoVp8; codecHeader_initialised := true |}]
       /\ m_frameWidth st1 = 1280.
Proof.
  assert (Hw : m_frameWidth streaming_vp8 <> 1280) by discriminate.
  split; [split; [exact Hw|reflexivity]|].
  destruct (onFrame_codec_change (rejecting_env false)
              {| format := FRAME_FORMAT_VP8; payload := sample_payload; length := 9;
                 timeStamp := 180000;
                 additionalInfo_video :=
                   {| width := 1280; height := 720; isKeyFrame := false |} |}
              streaming_vp8 sample_rtp
              {| codecType := kVideoCodecVP8; plName := "VP8"; plType := VP8_90000_PT |}
              eq_refl (or_introl eq_refl) eq_refl (or_introl eq_refl) eq_refl
              (or_intror (or_introl Hw)))
    as (target & _ & Hrun & _).
  eexists target, _. split; [exact Hrun|reflexivity].
Defined.

Lemma onFrame_nal_fragmentation_witness :
  scanner_in_bounds (sample_env true) two_unit_payload
  /\ exists frag st' calls,
       onFrame (sample_env true) (sample_frame FRAME_FORMAT_H264 true two_unit_payload)
         fresh = Done tt st' calls
       /\ fragments_between 0 11 frag
       /\ fragmentationVectorSize frag <= 65535.
Proof.
  assert (Hin : scanner_in_bounds (sample_env true) two_unit_payload)
    by (apply annexb_scanner_reads_in_bounds; reflexivity).
  split; [exact Hin|].
  assert (Hlen : 0 <= length (sample_frame FRAME_FORMAT_H264 true two_unit_payload)
                 < 2 ^ 31) by (cbn; lia).
  destruct (onFrame_nal_fragmentation (sample_env true)
              (sample_frame FRAME_FORMAT_H264 true two_unit_payload) fresh sample_rtp
              eq_refl (or_intror eq_refl) (or_introl eq_refl) eq_refl Hlen Hin)
    as [(frag & st' & calls & Hrun & _ & Hbetween & Hfits)|(Hmany & _)].
  - exists frag, st', calls. split; [exact Hrun|]. split; [exact Hbetween|exact Hfits].
  - cbn in Hmany. lia.
Defined.

Lemma onFrame_nal_not_scanned_witness :
  to_int32 (length (sample_frame FRAME_FORMAT_H265 true [])) <= 0
  /\ exists st' calls,
       onFrame (sample_env true) (sample_frame FRAME_FORMAT_H265 true []) fresh
       = Done tt st' calls
       /\ filter is_send calls
          = [SendOutgoingData kVideoFrameKey H265_90000_PT 90000 1000 [] 0 (Some [])
               {| codec := kRtpVideoH265; codecHeader_initialised := false |}].
Proof.
  assert (Hlen : to_int32 (length (sample_frame FRAME_FORMAT_H265 true [])) <= 0)
    by (vm_compute; discriminate).
  split; [exact Hlen|].
  destruct (onFrame_nal_not_scanned (sample_env true)
              (sample_frame FRAME_FORMAT_H265 true []) fresh sample_rtp
              eq_refl (or_intror eq_refl) (or_intror eq_refl) eq_refl Hlen)
    as (st' & calls & Hrun & Hsend & _).
  exists st', calls. split; [exact Hrun|exact Hsend].
Defined.

Lemma receiveRtpData_follows_binding_witness :
  m_rtpRtcp fresh = Some sample_rtp
  /\ exists calls,
       (bindTransport (sample_env false) (Some 2%nat) ;;
        receiveRtpData (sample_env false) [128; 96] 2 VIDEO 0) fresh
       = Done tt (set_videoSink_ (Some 2%nat) fresh)
           (calls ++ [deliverVideoData 2%nat [128; 96] 2]).
Proof.
  split; [reflexivity|].
  destruct (receiveRtpData_follows_binding (sample_env false) fresh sample_rtp
              2%nat [128; 96] 2 0 eq_refl) as ((calls & Hrun & _) & _).
  exists calls. exact Hrun.
Defined.

Lemma key_frame_requests_one_for_one_witness :
  forallb (fun step => is_request_op (snd step)) request_script = true
  /\ run request_script streaming_vp8
     = Done tt streaming_vp8 [keyFrameRequest; keyFrameRequest; keyFrameRequest].
Proof.
  split; [reflexivity|].
  exact (key_frame_requests_one_for_one request_script streaming_vp8 eq_refl).
Defined.
